(** * Fitz backend (fitz_backend/main.py): the four endpoints and their
    external collaborators, as a shallow embedding.

    The module is a FastAPI application whose handlers call five external
    services: the identity service ([auth]), the record store ([db]), the
    text-generation model ([gemini_model]), the music catalog ([spotify])
    and the nutrition service (through [requests.post]).  The handlers are
    embedded as computations in a state-and-exception monad over a [World]
    (what the external stores hold, and the log of the calls made); what an
    external call answers is read from an [Env], one field per call.
    [print] calls write to the server's console only and are left out. *)

From Stdlib Require Import ZArith Floats.
From stdpp Require Import base option list strings gmap.

(** ** Python values

    The catalog's search result, the nutrition service's JSON and the
    bodies the handlers return are Python dicts, lists and scalars. A dict
    is an association list; a key is looked up at its first binding. *)

#[local] Unset Elimination Schemes.
Inductive pyval : Type :=
| PyNone
| PyBool (b : bool)
| PyInt (n : Z)
| PyFloat (x : float)
| PyStr (s : string)
| PyList (l : list pyval)
| PyDict (d : list (string * pyval)).
#[local] Set Elimination Schemes.

(** ** Exceptions

    An exception is known by the [except] clause that catches it and by
    what [str(e)] gives. The classes are those the handlers name, those the
    interpreter raises while a search result is taken apart, and
    [Exception_cls] for every other subclass of [Exception]. *)

Record HTTPException : Type :=
  { status_code : Z; detail : string }.

Inductive exn_class : Type :=
| HTTPException_cls (h : HTTPException)
| SpotifyException_cls
| UserNotFoundError_cls
| RequestException_cls
| KeyError_cls
| IndexError_cls
| TypeError_cls
| AttributeError_cls
| Exception_cls.

Record exn : Type := Exn
  { exn_cls : exn_class; exn_str : string }.

Definition HTTP_201_CREATED : Z := 201.
Definition HTTP_200_OK : Z := 200.
Definition HTTP_400_BAD_REQUEST : Z := 400.
Definition HTTP_404_NOT_FOUND : Z := 404.
Definition HTTP_409_CONFLICT : Z := 409.
Definition HTTP_500_INTERNAL_SERVER_ERROR : Z := 500.
Definition HTTP_502_BAD_GATEWAY : Z := 502.
Definition HTTP_503_SERVICE_UNAVAILABLE : Z := 503.

(** The value of a Python expression: the exception it raises, or its value. *)
Definition pyres (A : Type) : Type := exn + A.

#[global] Instance pyres_ret : MRet pyres := λ A a, inr a.
#[global] Instance pyres_bind : MBind pyres :=
  λ A B f m, match m with inl e => inl e | inr a => f a end.

(** ** The operations of Python the handlers use *)

(** [needle in hay], for two strings. *)
Fixpoint py_in (needle hay : string) : bool :=
  String.prefix needle hay ||
  match hay with
  | EmptyString => false
  | String _ rest => py_in needle rest
  end.

Definition type_name (v : pyval) : string :=
  match v with
  | PyNone => "NoneType"
  | PyBool _ => "bool"
  | PyInt _ => "int"
  | PyFloat _ => "float"
  | PyStr _ => "str"
  | PyList _ => "list"
  | PyDict _ => "dict"
  end.

Fixpoint dict_lookup (d : list (string * pyval)) (k : string) : option pyval :=
  match d with
  | [] => None
  | (k', v) :: d' => if String.eqb k' k then Some v else dict_lookup d' k
  end.

(** [bool(v)]. *)
Definition py_truthy (v : pyval) : bool :=
  match v with
  | PyNone => false
  | PyBool b => b
  | PyInt n => negb (n =? 0)%Z
  | PyFloat x => negb (x =? 0)%float
  | PyStr s => negb (String.eqb s EmptyString)
  | PyList l => match l with [] => false | _ => true end
  | PyDict d => match d with [] => false | _ => true end
  end.

(** [v[k]] for a string key [k]; the messages are CPython's. *)
Definition py_getitem (v : pyval) (k : string) : pyres pyval :=
  match v with
  | PyDict d =>
      match dict_lookup d k with
      | Some x => inr x
      | None => inl (Exn KeyError_cls ("'" +:+ k +:+ "'"))
      end
  | PyStr _ => inl (Exn TypeError_cls "string indices must be integers, not 'str'")
  | PyList _ => inl (Exn TypeError_cls "list indices must be integers or slices, not str")
  | _ => inl (Exn TypeError_cls ("'" +:+ type_name v +:+ "' object is not subscriptable"))
  end.

(** [v[0]]; the dicts here have string keys, so [0] is never one of them. *)
Definition py_getitem_0 (v : pyval) : pyres pyval :=
  match v with
  | PyList (x :: _) => inr x
  | PyList [] => inl (Exn IndexError_cls "list index out of range")
  | PyStr (String c _) => inr (PyStr (String c EmptyString))
  | PyStr EmptyString => inl (Exn IndexError_cls "string index out of range")
  | PyDict _ => inl (Exn KeyError_cls "0")
  | _ => inl (Exn TypeError_cls ("'" +:+ type_name v +:+ "' object is not subscriptable"))
  end.

(** [v.get(k, default)]. *)
Definition py_get (v : pyval) (k : string) (default : pyval) : pyres pyval :=
  match v with
  | PyDict d => inr (from_option id default (dict_lookup d k))
  | _ => inl (Exn AttributeError_cls
                ("'" +:+ type_name v +:+ "' object has no attribute 'get'"))
  end.

(** The values a [for] loop over [v] visits: the elements of a list, the
    keys of a dict, the characters of a string. *)
Definition py_iter (v : pyval) : pyres (list pyval) :=
  match v with
  | PyList l => inr l
  | PyDict d => inr (PyStr <$> d.*1)
  | PyStr s => inr ((λ c, PyStr (String c EmptyString)) <$> String.list_ascii_of_string s)
  | _ => inl (Exn TypeError_cls ("'" +:+ type_name v +:+ "' object is not iterable"))
  end.

(** An f-string field holding an [Optional[str]]. *)
Definition format_optional (o : option string) : string :=
  match o with
  | Some s => s
  | None => "None"
  end.

(** ** Request models (section 4 of main.py) *)

Record RegisterRequest : Type :=
  { reg_email : string; reg_password : string; reg_name : string }.

Record LoginRequest : Type :=
  { login_email : string; login_password : string }.

Record GeneratePlanRequest : Type :=
  { user_uid : string;
    current_weight : float;
    target_weight : float;
    duration_weeks : Z;
    music_genre : string;
    workout_intensity : option string }.

Record NutritionIngredient : Type :=
  { ingredient : string }.

(** ** What the external services hold and answer *)

(** [firestore.SERVER_TIMESTAMP]: the store fills the field in. *)
Inductive Sentinel : Type := SERVER_TIMESTAMP.

(** A record of the identity service. *)
Record UserRecord : Type :=
  { uid : string; email : string }.

(** The document [register_user] sets under [users/<uid>]. *)
Record ProfileDoc : Type :=
  { doc_name : string; doc_email : string; created_at : Sentinel }.

(** The document [generate_plan] adds under [users/<uid>/plans]. *)
Record PlanRecord : Type :=
  { rec_current_weight : float;
    rec_target_weight : float;
    rec_duration_weeks : Z;
    rec_music_genre : string;
    rec_workout_intensity : option string;
    rec_workout_plan : string;
    rec_diet_general_info : string;
    rec_music_playlist_suggestions : list pyval;
    generated_at : Sentinel }.

(** The two prompts are f-strings around three fields of the request; a
    prompt is kept as its template and the three values it embeds. *)
Inductive Prompt : Type :=
| workout_prompt (current_weight target_weight : float) (duration_weeks : Z)
| diet_initial_prompt (current_weight target_weight : float) (duration_weeks : Z).

(** The calls the handlers make to the outside. *)
Inductive Call : Type :=
| auth_create_user (email password : string)
| auth_get_user_by_email (email : string)
| db_users_document_set (uid : string) (doc : ProfileDoc)
| db_users_plans_add (uid : string) (doc : PlanRecord)
| gemini_generate_content (prompt : Prompt)
| spotify_search (q type : string) (limit : Z)
| requests_post (url : string) (json_ingredients : list string)
                (app_id app_key : string) (content_type : string).

Record World : Type :=
  { auth_users : list UserRecord;            (* accounts of the identity service *)
    users : gmap string ProfileDoc;          (* collection 'users' *)
    plans : gmap string (list PlanRecord);   (* sub-collection 'plans' of each user *)
    calls : list Call }.                     (* calls made so far, oldest first *)

(** The plan records stored under a user. *)
Definition plans_of (w : World) (u : string) : list PlanRecord :=
  default [] (plans w !! u).

Record GenerateContentResponse : Type :=
  { text : pyres string }.

Record GenerativeModel : Type :=
  { generate_content : Prompt → pyres GenerateContentResponse }.

Record Spotify : Type :=
  { search : string → string → Z → pyres pyval }.

Record Response : Type :=
  { raise_for_status : pyres unit; json : pyres pyval }.

(** The module's globals and the answers of the services behind them.
    [document_set] and [collection_add] are the answers of the two writes
    of the record store, [set] and [add], as calls of the synchronous client
    that [firestore.client()] builds (line 43): [inr ()] when the call
    returns (its WriteResult, or its pair of a time and a reference, is not
    looked at), [inl e] when it raises [e]. A call that returns has stored
    its document; one that raises is taken to have stored nothing. *)
Record Env : Type :=
  { EDAMAM_APP_ID : option string;
    EDAMAM_APP_KEY : option string;
    gemini_model : option GenerativeModel;
    spotify : option Spotify;
    create_user : string → string → pyres UserRecord;
    get_user_by_email : string → pyres UserRecord;
    document_set : string → ProfileDoc → pyres unit;
    collection_add : string → PlanRecord → pyres unit;
    post : string → list string → string → string → pyres Response }.

(** [not v] for a value of [os.getenv]: unset, or set to the empty string. *)
Definition env_missing (v : option string) : bool :=
  match v with
  | None => true
  | Some s => String.eqb s EmptyString
  end.

(** ** The monad of the handlers: a world threaded through, and an
    exception of type [E] or a value. The world survives an exception. *)

Definition M (E A : Type) : Type := World → (E + A) * World.

#[global] Instance M_ret {E} : MRet (M E) := λ A a w, (inr a, w).
#[global] Instance M_bind {E} : MBind (M E) :=
  λ A B f m w, match m w with
               | (inl e, w') => (inl e, w')
               | (inr a, w') => f a w'
               end.
#[global] Instance M_throw {E} : MThrow E (M E) := λ A e w, (inl e, w).

(** [try: body / except Exception as e: handler e]. *)
Definition try_except {E E' A} (body : M E A) (handler : E → M E' A) : M E' A :=
  λ w, match body w with
       | (inl e, w') => handler e w'
       | (inr a, w') => (inr a, w')
       end.

(** A Python expression that touches nothing outside. *)
Definition eval {A} (r : pyres A) : M exn A := λ w, (r, w).

Definition log (c : Call) (w : World) : World :=
  {| auth_users := auth_users w; users := users w; plans := plans w;
     calls := calls w ++ [c] |}.

(** An external call: it is logged, and when it returns its effect on the
    stores has taken place. *)
Definition external {A} (c : Call) (answer : pyres A) (effect : A → World → World)
  : M exn A :=
  λ w, match answer with
       | inl e => (inl e, log c w)
       | inr a => (inr a, effect a (log c w))
       end.

Definition add_auth_user (u : UserRecord) (w : World) : World :=
  {| auth_users := auth_users w ++ [u]; users := users w; plans := plans w;
     calls := calls w |}.

Definition set_user_doc (u : string) (d : ProfileDoc) (w : World) : World :=
  {| auth_users := auth_users w; users := <[u := d]> (users w); plans := plans w;
     calls := calls w |}.

Definition add_plan (u : string) (d : PlanRecord) (w : World) : World :=
  {| auth_users := auth_users w; users := users w;
     plans := <[u := plans_of w u ++ [d]]> (plans w);
     calls := calls w |}.

(** ** The calls, as the handlers write them *)

(** [auth.create_user(email=..., password=...)]. *)
Definition auth_create (env : Env) (email password : string) : M exn UserRecord :=
  external (auth_create_user email password) (create_user env email password)
           add_auth_user.

(** [auth.get_user_by_email(email)]. *)
Definition auth_lookup (env : Env) (email : string) : M exn UserRecord :=
  external (auth_get_user_by_email email) (get_user_by_email env email) (λ _ w, w).

(** [await v] for a value [v] that is not awaitable: the TypeError of
    CPython, which names the type of [v]. *)
Definition await_error (type : string) : exn :=
  Exn TypeError_cls ("object " +:+ type +:+ " can't be used in 'await' expression").

(** [await db.collection('users').document(uid).set(doc)]. [db] is the
    synchronous client: [set] writes the document and returns a
    WriteResult, and the [await] of that value raises. *)
Definition users_set (env : Env) (u : string) (doc : ProfileDoc) : M exn unit :=
  _ ← external (db_users_document_set u doc) (document_set env u doc)
               (λ _, set_user_doc u doc);
  mthrow (await_error "WriteResult").

(** [await db.collection('users').document(uid).collection('plans').add(doc)].
    [add] writes the record and returns a tuple (the time of the write and
    the reference of the new document), and the [await] of it raises. *)
Definition plans_add (env : Env) (u : string) (doc : PlanRecord) : M exn unit :=
  _ ← external (db_users_plans_add u doc) (collection_add env u doc)
               (λ _, add_plan u doc);
  mthrow (await_error "tuple").

(** [model.generate_content(prompt)]. *)
Definition generate (model : GenerativeModel) (prompt : Prompt)
  : M exn GenerateContentResponse :=
  external (gemini_generate_content prompt) (generate_content model prompt) (λ _ w, w).

(** ** POST /register *)

Definition register_user (env : Env) (request_data : RegisterRequest)
  : M HTTPException pyval :=
  try_except
    (user ← auth_create env (reg_email request_data) (reg_password request_data);
     _ ← users_set env (uid user)
           {| doc_name := reg_name request_data;
              doc_email := reg_email request_data;
              created_at := SERVER_TIMESTAMP |};
     mret (PyDict [("message", PyStr "User registered successfully");
                   ("uid", PyStr (uid user))]))
    (λ e,
       if py_in "email-already-exists" (exn_str e) then
         mthrow {| status_code := HTTP_409_CONFLICT;
                   detail := "Email already registered. Please use a different email or log in." |}
       else
         mthrow {| status_code := HTTP_400_BAD_REQUEST;
                   detail := "Registration failed: " +:+ exn_str e |}).

(** ** POST /login *)

Definition login_user (env : Env) (request_data : LoginRequest)
  : M HTTPException pyval :=
  try_except
    (user ← auth_lookup env (login_email request_data);
     mret (PyDict [("message", PyStr "User found (client handles actual authentication)");
                   ("uid", PyStr (uid user));
                   ("email", PyStr (email user))]))
    (λ e,
       match exn_cls e with
       | UserNotFoundError_cls =>
           mthrow {| status_code := HTTP_404_NOT_FOUND;
                     detail := "User not found with this email." |}
       | _ =>
           mthrow {| status_code := HTTP_400_BAD_REQUEST;
                     detail := "Login verification failed: " +:+ exn_str e |}
       end).

(** ** POST /analyze_nutrition *)

Definition edamam_nutrition_url : string :=
  "https://api.edamam.com/api/nutrition-details".

Definition analyze_nutrition (env : Env) (ingredients : list NutritionIngredient)
  : M HTTPException pyval :=
  if env_missing (EDAMAM_APP_ID env) || env_missing (EDAMAM_APP_KEY env) then
    mthrow {| status_code := HTTP_503_SERVICE_UNAVAILABLE;
              detail := "Edamam API keys are not configured. Nutrition analysis is unavailable." |}
  else
    let app_id := default EmptyString (EDAMAM_APP_ID env) in
    let app_key := default EmptyString (EDAMAM_APP_KEY env) in
    try_except
      (let ingredient_strings := ingredient <$> ingredients in
       response ← external
                    (requests_post edamam_nutrition_url ingredient_strings
                                   app_id app_key "application/json")
                    (post env edamam_nutrition_url ingredient_strings app_id app_key)
                    (λ _ w, w);
       _ ← eval (raise_for_status response);
       eval (json response))
      (λ e,
         match exn_cls e with
         | RequestException_cls =>
             mthrow {| status_code := HTTP_502_BAD_GATEWAY;
                       detail := "Edamam API service is currently unavailable or returned an error: "
                                 +:+ exn_str e |}
         | _ =>
             mthrow {| status_code := HTTP_500_INTERNAL_SERVER_ERROR;
                       detail := "An unexpected error occurred during nutrition analysis: "
                                 +:+ exn_str e |}
         end).

(** ** POST /generate_plan *)

(** The dict appended for one [playlist] of the search result; the entries
    are evaluated in the order they are written. *)
Definition playlist_suggestion (playlist : pyval) : pyres pyval :=
  name ← py_getitem playlist "name";
  description ← py_get playlist "description" (PyStr "No description available");
  external_urls ← py_getitem playlist "external_urls";
  spotify_url ← py_getitem external_urls "spotify";
  images ← py_getitem playlist "images";
  image_url ← (if py_truthy images then
                 images ← py_getitem playlist "images";
                 image ← py_getitem_0 images;
                 py_getitem image "url"
               else mret PyNone);
  owner ← py_getitem playlist "owner";
  display_name ← py_getitem owner "display_name";
  tracks ← py_getitem playlist "tracks";
  total ← py_getitem tracks "total";
  mret (PyDict [("name", name);
                ("description", description);
                ("spotify_url", spotify_url);
                ("image_url", image_url);
                ("owner", display_name);
                ("tracks_count", total)]).

(** The [for] loop: each playlist's dict is appended to
    [playlist_suggestions]; an exception leaves the list as it stands. *)
Fixpoint append_suggestions (items playlist_suggestions : list pyval)
  : option exn * list pyval :=
  match items with
  | [] => (None, playlist_suggestions)
  | playlist :: rest =>
      match playlist_suggestion playlist with
      | inl se => (Some se, playlist_suggestions)
      | inr suggestion => append_suggestions rest (playlist_suggestions ++ [suggestion])
      end
  end.

(** [results.get('playlists', {}).get('items', [])], as the loop visits it. *)
Definition playlist_items (results : pyval) : pyres (list pyval) :=
  playlists ← py_get results "playlists" (PyDict []);
  items ← py_get playlists "items" (PyList []);
  py_iter items.

Definition search_query (request_data : GeneratePlanRequest) : string :=
  music_genre request_data +:+ " " +:+
  format_optional (workout_intensity request_data) +:+ " workout music".

(** The body of the inner [try]: the exception that ended it, if any, and
    [playlist_suggestions] as it then stands. *)
Definition spotify_try (sp : Spotify) (request_data : GeneratePlanRequest)
    (playlist_suggestions : list pyval) (w : World)
  : (option exn * list pyval) * World :=
  let query := search_query request_data in
  let w' := log (spotify_search query "playlist" 5) w in
  match search sp query "playlist" 5 with
  | inl se => ((Some se, playlist_suggestions), w')
  | inr results =>
      match playlist_items results with
      | inl se => ((Some se, playlist_suggestions), w')
      | inr items => (append_suggestions items playlist_suggestions, w')
      end
  end.

(** The two [except] clauses of the inner [try]. *)
Definition spotify_error (se : exn) : pyval :=
  match exn_cls se with
  | SpotifyException_cls =>
      PyDict [("error", PyStr ("Spotify API error: " +:+ exn_str se +:+
                               ". Check credentials or network."))]
  | _ =>
      PyDict [("error", PyStr ("An unexpected Spotify error occurred: " +:+ exn_str se))]
  end.

Definition spotify_not_initialized : pyval :=
  PyDict [("error", PyStr "Spotify API not initialized. Check server logs for credential errors.")].

(** Lines 202-226: the value of [playlist_suggestions] after the catalog step. *)
Definition music_playlist (env : Env) (request_data : GeneratePlanRequest)
  : M exn (list pyval) :=
  λ w,
    let playlist_suggestions := [] in
    match spotify env with
    | Some sp =>
        match spotify_try sp request_data playlist_suggestions w with
        | ((None, playlist_suggestions), w') => (inr playlist_suggestions, w')
        | ((Some se, playlist_suggestions), w') =>
            (inr (playlist_suggestions ++ [spotify_error se]), w')
        end
    | None => (inr (playlist_suggestions ++ [spotify_not_initialized]), w)
    end.

Definition plan_record (request_data : GeneratePlanRequest)
    (workout_plan diet_general_info : string) (playlist_suggestions : list pyval)
  : PlanRecord :=
  {| rec_current_weight := current_weight request_data;
     rec_target_weight := target_weight request_data;
     rec_duration_weeks := duration_weeks request_data;
     rec_music_genre := music_genre request_data;
     rec_workout_intensity := workout_intensity request_data;
     rec_workout_plan := workout_plan;
     rec_diet_general_info := diet_general_info;
     rec_music_playlist_suggestions := playlist_suggestions;
     generated_at := SERVER_TIMESTAMP |}.

Definition plan_response (workout_plan diet_general_info : string)
    (playlist_suggestions : list pyval) : pyval :=
  PyDict [("message", PyStr "Plan generated and saved successfully");
          ("workout_plan", PyStr workout_plan);
          ("diet_plan_summary", PyStr diet_general_info);
          ("music_playlist_suggestions", PyList playlist_suggestions)].

(** The body of the outer [try] (lines 174-247). *)
Definition generate_plan_try (env : Env) (model : GenerativeModel)
    (request_data : GeneratePlanRequest) : M exn pyval :=
  gemini_workout_response ←
    generate model (workout_prompt (current_weight request_data)
                      (target_weight request_data) (duration_weeks request_data));
  workout_plan ← eval (text gemini_workout_response);
  gemini_diet_response ←
    generate model (diet_initial_prompt (current_weight request_data)
                      (target_weight request_data) (duration_weeks request_data));
  diet_general_info ← eval (text gemini_diet_response);
  playlist_suggestions ← music_playlist env request_data;
  _ ← plans_add env (user_uid request_data)
        (plan_record request_data workout_plan diet_general_info playlist_suggestions);
  mret (plan_response workout_plan diet_general_info playlist_suggestions).

Definition generate_plan (env : Env) (request_data : GeneratePlanRequest)
  : M HTTPException pyval :=
  match gemini_model env with
  | None =>
      mthrow {| status_code := HTTP_503_SERVICE_UNAVAILABLE;
                detail := "AI model (Gemini) is not initialized. Please check GEMINI_API_KEY." |}
  | Some model =>
      try_except (generate_plan_try env model request_data)
        (λ e,
           match exn_cls e with
           | HTTPException_cls h => mthrow h
           | _ =>
               mthrow {| status_code := HTTP_500_INTERNAL_SERVER_ERROR;
                         detail := "An internal error occurred while generating the plan: "
                                   +:+ exn_str e |}
           end)
  end.

(** The status a client sees: the route's success status when the handler
    returns, the exception's when it raises. *)
Definition response_status {A} (success : Z) (r : HTTPException + A) : Z :=
  match r with
  | inl h => status_code h
  | inr _ => success
  end.

(** ** GET / *)

Definition read_root : M HTTPException pyval :=
  mret (PyDict [("message", PyStr "AI Fitness Music App Backend is running!")]).

(** ** The application: its five routes

    A request has passed the validation of its model when the handler
    runs. [serve] takes the requests one after the other, each under the
    answers the services give at that time. *)

Inductive Request : Type :=
| GET_root
| POST_register (request_data : RegisterRequest)
| POST_login (request_data : LoginRequest)
| POST_generate_plan (request_data : GeneratePlanRequest)
| POST_analyze_nutrition (ingredients : list NutritionIngredient).

Definition route (env : Env) (r : Request) : M HTTPException pyval :=
  match r with
  | GET_root => read_root
  | POST_register request_data => register_user env request_data
  | POST_login request_data => login_user env request_data
  | POST_generate_plan request_data => generate_plan env request_data
  | POST_analyze_nutrition ingredients => analyze_nutrition env ingredients
  end.

(** The [status_code=] of the route's decorator, 200 when it gives none. *)
Definition route_status_code (r : Request) : Z :=
  match r with
  | POST_register _ => HTTP_201_CREATED
  | _ => HTTP_200_OK
  end.

Fixpoint serve (rs : list (Env * Request)) (w : World)
  : list (HTTPException + pyval) * World :=
  match rs with
  | [] => ([], w)
  | (env, r) :: rs' =>
      let '(answer, w1) := route env r w in
      let '(answers, w2) := serve rs' w1 in
      (answer :: answers, w2)
  end.

(** ** The start of the module (sections 2 and 3 of main.py) *)

(** The client [firestore.client()] returns, the synchronous one: its two
    writes, as plain calls. *)
Record Client : Type :=
  { client_document_set : string → ProfileDoc → pyres unit;
    client_collection_add : string → PlanRecord → pyres unit }.

(** What the module meets when it is imported: the environment variables
    (after [load_dotenv]), the file system, the constructors of the client
    libraries, and the two library modules the handlers call directly
    ([auth] and [requests]). [Cred] and [AuthManager] are the objects handed
    from one constructor to the next. *)
Record Platform (Cred AuthManager : Type) : Type :=
  { environ : gmap string string;
    path_exists : string → bool;
    Certificate : string → pyres Cred;
    initialize_app : Cred → pyres unit;
    firestore_client : pyres Client;
    genai_configure : string → pyres unit;
    new_GenerativeModel : string → pyres GenerativeModel;
    SpotifyClientCredentials : string → string → pyres AuthManager;
    new_Spotify : AuthManager → pyres Spotify;
    auth_module_create_user : string → string → pyres UserRecord;
    auth_module_get_user_by_email : string → pyres UserRecord;
    requests_module_post : string → list string → string → string → pyres Response }.

Arguments environ {_ _} _.
Arguments path_exists {_ _} _ _.
Arguments Certificate {_ _} _ _.
Arguments initialize_app {_ _} _ _.
Arguments firestore_client {_ _} _.
Arguments genai_configure {_ _} _ _.
Arguments new_GenerativeModel {_ _} _ _.
Arguments SpotifyClientCredentials {_ _} _ _ _.
Arguments new_Spotify {_ _} _ _.
Arguments auth_module_create_user {_ _} _ _ _.
Arguments auth_module_get_user_by_email {_ _} _ _.
Arguments requests_module_post {_ _} _ _ _ _ _.

(** [os.getenv(k)]. *)
Definition getenv {Cred AuthManager} (os : Platform Cred AuthManager) (k : string)
  : option string :=
  environ os !! k.

(** How the import ends when it does not complete: the two exceptions the
    module raises itself, or one a constructor raised outside any [try]. *)
Inductive StartupError : Type :=
| RuntimeError (msg : string)
| FileNotFoundError (msg : string)
| Uncaught (e : exn).

(** Lines 59-67: [gemini_model]. *)
Definition init_gemini {Cred AuthManager} (os : Platform Cred AuthManager)
  : pyres (option GenerativeModel) :=
  let GEMINI_API_KEY := getenv os "GEMINI_API_KEY" in
  if env_missing GEMINI_API_KEY then mret None
  else
    _ ← genai_configure os (default EmptyString GEMINI_API_KEY);
    model ← new_GenerativeModel os "gemini-pro";
    mret (Some model).

(** Lines 69-86: [spotify]; an exception of a constructor leaves it [None]. *)
Definition init_spotify {Cred AuthManager} (os : Platform Cred AuthManager)
  : option Spotify :=
  let SPOTIPY_CLIENT_ID := getenv os "SPOTIPY_CLIENT_ID" in
  let SPOTIPY_CLIENT_SECRET := getenv os "SPOTIPY_CLIENT_SECRET" in
  if env_missing SPOTIPY_CLIENT_ID || env_missing SPOTIPY_CLIENT_SECRET then None
  else
    match (auth_manager ← SpotifyClientCredentials os
                             (default EmptyString SPOTIPY_CLIENT_ID)
                             (default EmptyString SPOTIPY_CLIENT_SECRET);
           new_Spotify os auth_manager) with
    | inl _ => None
    | inr sp => Some sp
    end.

(** Lines 30-48: [db]. *)
Definition init_firebase {Cred AuthManager} (os : Platform Cred AuthManager)
  : StartupError + Client :=
  let FIREBASE_PRIVATE_KEY_PATH := getenv os "FIREBASE_PRIVATE_KEY_PATH" in
  if env_missing FIREBASE_PRIVATE_KEY_PATH then
    inl (RuntimeError "FIREBASE_PRIVATE_KEY_PATH environment variable not set.")
  else
    let path := default EmptyString FIREBASE_PRIVATE_KEY_PATH in
    if negb (path_exists os path) then
      inl (FileNotFoundError ("Firebase private key file not found at: " +:+ path))
    else
      match (cred ← Certificate os path;
             _ ← initialize_app os cred;
             firestore_client os) with
      | inl e =>
          inl (RuntimeError ("Failed to initialize Firebase: " +:+ exn_str e +:+
                             ". Check FIREBASE_PRIVATE_KEY_PATH."))
      | inr db => inr db
      end.

(** The import of the module: the exception that ends it, or the globals
    the handlers then use, with the services behind them. *)
Definition main_module {Cred AuthManager} (os : Platform Cred AuthManager)
  : StartupError + Env :=
  match init_firebase os with
  | inl err => inl err
  | inr db =>
      match init_gemini os with
      | inl e => inl (Uncaught e)
      | inr model =>
          inr {| EDAMAM_APP_ID := getenv os "EDAMAM_APP_ID";
                 EDAMAM_APP_KEY := getenv os "EDAMAM_APP_KEY";
                 gemini_model := model;
                 spotify := init_spotify os;
                 create_user := auth_module_create_user os;
                 get_user_by_email := auth_module_get_user_by_email os;
                 document_set := client_document_set db;
                 collection_add := client_collection_add db;
                 post := requests_module_post os |}
      end
  end.

(** * The vocabulary of the statements *)

(** A dict with the single key ["error"]. *)
Definition is_error_marker (v : pyval) : bool :=
  match v with
  | PyDict [(k, _)] => String.eqb k "error"
  | _ => false
  end.

(** [suggested items l]: [l] holds the dicts of [items], one each, in order. *)
Definition suggested (items l : list pyval) : Prop :=
  Forall2 (λ playlist s, playlist_suggestion playlist = inr s) items l.

Definition search_call (request_data : GeneratePlanRequest) : Call :=
  spotify_search (search_query request_data) "playlist" 5.

(** The search call or the handling of its result raises [se], the dicts
    of [l] having been appended by then. *)
Inductive catalog_raises (sp : Spotify) (request_data : GeneratePlanRequest)
  : exn → list pyval → Prop :=
| search_raises se :
    search sp (search_query request_data) "playlist" 5 = inl se →
    catalog_raises sp request_data se []
| items_raise results se :
    search sp (search_query request_data) "playlist" 5 = inr results →
    playlist_items results = inl se →
    catalog_raises sp request_data se []
| playlist_raises results before playlist rest l se :
    search sp (search_query request_data) "playlist" 5 = inr results →
    playlist_items results = inr (before ++ playlist :: rest) →
    suggested before l →
    playlist_suggestion playlist = inl se →
    catalog_raises sp request_data se l.

Definition workout_prompt_of (request_data : GeneratePlanRequest) : Prompt :=
  workout_prompt (current_weight request_data) (target_weight request_data)
                 (duration_weeks request_data).

Definition diet_prompt_of (request_data : GeneratePlanRequest) : Prompt :=
  diet_initial_prompt (current_weight request_data) (target_weight request_data)
                      (duration_weeks request_data).

(** [model.generate_content(prompt).text]. *)
Definition generated_text (model : GenerativeModel) (prompt : Prompt) : pyres string :=
  response ← generate_content model prompt; text response.

(** The world after the catalog step. *)
Definition after_catalog (env : Env) (request_data : GeneratePlanRequest) (w : World)
  : World :=
  match spotify env with
  | Some _ => log (search_call request_data) w
  | None => w
  end.

Definition after_texts (request_data : GeneratePlanRequest) (w : World) : World :=
  log (gemini_generate_content (diet_prompt_of request_data))
      (log (gemini_generate_content (workout_prompt_of request_data)) w).

(** The [except] clauses of the outer [try]. *)
Definition internal_error (e : exn) : HTTPException :=
  {| status_code := HTTP_500_INTERNAL_SERVER_ERROR;
     detail := "An internal error occurred while generating the plan: " +:+ exn_str e |}.

Definition is_HTTPException (e : exn) : bool :=
  match exn_cls e with
  | HTTPException_cls _ => true
  | _ => false
  end.

Definition is_search (c : Call) : bool :=
  match c with
  | spotify_search _ _ _ => true
  | _ => false
  end.

Definition is_add (c : Call) : bool :=
  match c with
  | db_users_plans_add _ _ => true
  | _ => false
  end.

(** An exception [e] is raised by the first or the second text-generation
    call, or by the call of [add] (the failures of the catalog step are
    handled inside it and never get here). *)
Inductive plan_raises (env : Env) (model : GenerativeModel)
    (request_data : GeneratePlanRequest) : exn → Prop :=
| workout_raises e :
    generated_text model (workout_prompt_of request_data) = inl e →
    plan_raises env model request_data e
| diet_raises workout_plan e :
    generated_text model (workout_prompt_of request_data) = inr workout_plan →
    generated_text model (diet_prompt_of request_data) = inl e →
    plan_raises env model request_data e
| persistence_raises workout_plan diet_general_info l e :
    generated_text model (workout_prompt_of request_data) = inr workout_plan →
    generated_text model (diet_prompt_of request_data) = inr diet_general_info →
    (∀ w, fst (music_playlist env request_data w) = inr l) →
    collection_add env (user_uid request_data)
      (plan_record request_data workout_plan diet_general_info l) = inl e →
    plan_raises env model request_data e.

Definition already_exists_marker : string := "email-already-exists".

Definition profile_doc (request_data : RegisterRequest) : ProfileDoc :=
  {| doc_name := reg_name request_data;
     doc_email := reg_email request_data;
     created_at := SERVER_TIMESTAMP |}.

Definition conflict : HTTPException :=
  {| status_code := HTTP_409_CONFLICT;
     detail := "Email already registered. Please use a different email or log in." |}.

Definition registration_failed (e : exn) : HTTPException :=
  {| status_code := HTTP_400_BAD_REQUEST;
     detail := "Registration failed: " +:+ exn_str e |}.

(** [s] contains the marker. *)
Definition has_marker (s : string) : Prop :=
  ∃ a b, s = a +:+ already_exists_marker +:+ b.

Definition user_found (user : UserRecord) : pyval :=
  PyDict [("message", PyStr "User found (client handles actual authentication)");
          ("uid", PyStr (uid user));
          ("email", PyStr (email user))].

Definition nutrition_unavailable : HTTPException :=
  {| status_code := HTTP_503_SERVICE_UNAVAILABLE;
     detail := "Edamam API keys are not configured. Nutrition analysis is unavailable." |}.

(** The two [except] clauses of [analyze_nutrition]. *)
Definition nutrition_failed (e : exn) : HTTPException :=
  match exn_cls e with
  | RequestException_cls =>
      {| status_code := HTTP_502_BAD_GATEWAY;
         detail := "Edamam API service is currently unavailable or returned an error: "
                   +:+ exn_str e |}
  | _ =>
      {| status_code := HTTP_500_INTERNAL_SERVER_ERROR;
         detail := "An unexpected error occurred during nutrition analysis: "
                   +:+ exn_str e |}
  end.

(** The one call of [analyze_nutrition]. *)
Definition nutrition_call (env : Env) (ingredients : list NutritionIngredient) : Call :=
  requests_post edamam_nutrition_url (ingredient <$> ingredients)
    (default EmptyString (EDAMAM_APP_ID env)) (default EmptyString (EDAMAM_APP_KEY env))
    "application/json".

(** The post, the check of its status or the decoding of its body raises [e]. *)
Definition nutrition_raises (env : Env) (ingredients : list NutritionIngredient)
    (e : exn) : Prop :=
  let answer := post env edamam_nutrition_url (ingredient <$> ingredients)
                  (default EmptyString (EDAMAM_APP_ID env))
                  (default EmptyString (EDAMAM_APP_KEY env)) in
  answer = inl e ∨
  ∃ response, answer = inr response ∧
              (raise_for_status response = inl e ∨
               raise_for_status response = inr () ∧ json response = inl e).

(** The calls of a request to [generate_plan] that gets as far as the
    write of [doc], in their order. *)
Definition plan_calls (env : Env) (request_data : GeneratePlanRequest)
    (doc : PlanRecord) : list Call :=
  [gemini_generate_content (workout_prompt_of request_data);
   gemini_generate_content (diet_prompt_of request_data)]
  ++ match spotify env with
     | Some _ => [search_call request_data]
     | None => []
     end
  ++ [db_users_plans_add (user_uid request_data) doc].

(** What one request may do to the stores: nothing; add an account; add
    an account and set its profile; add one plan under a user. *)
Inductive store_step (w w' : World) : Prop :=
| step_nothing :
    auth_users w' = auth_users w → users w' = users w → plans w' = plans w →
    store_step w w'
| step_account user :
    auth_users w' = auth_users w ++ [user] → users w' = users w →
    plans w' = plans w →
    store_step w w'
| step_profile user doc :
    auth_users w' = auth_users w ++ [user] →
    users w' = <[uid user := doc]> (users w) →
    plans w' = plans w →
    store_step w w'
| step_plan u doc :
    auth_users w' = auth_users w → users w' = users w →
    plans w' = <[u := plans_of w u ++ [doc]]> (plans w) →
    store_step w w'.

(** The plan requests for user [u] among the requests [rs]. *)
Definition plan_request_for (u : string) (r : Request) : nat :=
  match r with
  | POST_generate_plan request_data =>
      if String.eqb (user_uid request_data) u then 1 else 0
  | _ => 0
  end.

Fixpoint plan_requests (u : string) (rs : list (Env * Request)) : nat :=
  match rs with
  | [] => 0
  | (_, r) :: rs' => plan_request_for u r + plan_requests u rs'
  end.

(** Every profile document is stored under the uid of an account. *)
Definition profiles_have_accounts (w : World) : Prop :=
  ∀ u doc, users w !! u = Some doc → ∃ user, user ∈ auth_users w ∧ uid user = u.

(** A computation only adds to the log of calls. *)
Definition logs_only {E A} (m : M E A) : Prop :=
  ∀ w, calls w `prefix_of` calls (snd (m w)).

(** The three constructor calls of lines 41-43. *)
Definition firebase_constructors {Cred AuthManager} (os : Platform Cred AuthManager)
    (path : string) : pyres Client :=
  cred ← Certificate os path;
  _ ← initialize_app os cred;
  firestore_client os.

(** The two constructor calls of lines 78-82. *)
Definition spotify_constructors {Cred AuthManager} (os : Platform Cred AuthManager)
  : pyres Spotify :=
  auth_manager ← SpotifyClientCredentials os
                   (default EmptyString (getenv os "SPOTIPY_CLIENT_ID"))
                   (default EmptyString (getenv os "SPOTIPY_CLIENT_SECRET"));
  new_Spotify os auth_manager.

(** An exception of one of the classes the interpreter raises when a
    value is subscripted, asked for [.get] or iterated. *)
Definition interpreter_raised (e : exn) : Prop :=
  match exn_cls e with
  | KeyError_cls | IndexError_cls | TypeError_cls | AttributeError_cls => True
  | _ => False
  end.

(** * Sample services and requests, for the concrete runs *)

Definition empty_world : World :=
  {| auth_users := []; users := ∅; plans := ∅; calls := [] |}.

(** The request of the model's [example=] values. *)
Definition example_request : GeneratePlanRequest :=
  {| user_uid := "someFirebaseUserUID";
     current_weight := 70.5;
     target_weight := 65.0;
     duration_weeks := 8;
     music_genre := "Electronic Dance Music";
     workout_intensity := Some "moderate" |}.

Definition model_replying (t : string) : GenerativeModel :=
  {| generate_content := λ _, inr {| text := inr t |} |}.

Definition model_raising (e : exn) : GenerativeModel :=
  {| generate_content := λ _, inl e |}.

Definition catalog_returning (results : pyval) : Spotify :=
  {| search := λ _ _ _, inr results |}.

Definition catalog_raising (se : exn) : Spotify :=
  {| search := λ _ _ _, inl se |}.

Definition unavailable : exn := Exn Exception_cls "service unavailable".

(** An environment for [generate_plan]: the model, the catalog client and
    the answer of the store to the added record. *)
Definition plan_env (model : option GenerativeModel) (sp : option Spotify)
    (added : pyres unit) : Env :=
  {| EDAMAM_APP_ID := None; EDAMAM_APP_KEY := None;
     gemini_model := model; spotify := sp;
     create_user := λ _ _, inl unavailable;
     get_user_by_email := λ _, inl unavailable;
     document_set := λ _ _, inl unavailable;
     collection_add := λ _ _, added;
     post := λ _ _ _ _, inl unavailable |}.

Definition example_playlist : pyval :=
  PyDict [("name", PyStr "EDM Workout");
          ("description", PyStr "High-energy electronic tracks");
          ("external_urls", PyDict [("spotify", PyStr "https://open.spotify.com/playlist/1")]);
          ("images", PyList [PyDict [("url", PyStr "https://i.scdn.co/image/1")]]);
          ("owner", PyDict [("display_name", PyStr "Spotify")]);
          ("tracks", PyDict [("total", PyInt 50)])].

Definition example_suggestion : pyval :=
  PyDict [("name", PyStr "EDM Workout");
          ("description", PyStr "High-energy electronic tracks");
          ("spotify_url", PyStr "https://open.spotify.com/playlist/1");
          ("image_url", PyStr "https://i.scdn.co/image/1");
          ("owner", PyStr "Spotify");
          ("tracks_count", PyInt 50)].

Definition search_result (items : list pyval) : pyval :=
  PyDict [("playlists", PyDict [("items", PyList items)])].

(** The model answers, no catalog client, [add] stores what it is given. *)
Definition no_catalog_env : Env :=
  plan_env (Some (model_replying "Day 1: squats")) None (inr ()).

Definition null_item_env : Env :=
  plan_env (Some (model_replying "Day 1: squats"))
           (Some (catalog_returning (search_result [example_playlist; PyNone])))
           (inr ()).

Definition null_item_error : exn :=
  Exn TypeError_cls "'NoneType' object is not subscriptable".

Definition six_items_env : Env :=
  plan_env (Some (model_replying "Day 1: squats"))
           (Some (catalog_returning (search_result (replicate 6 example_playlist))))
           (inr ()).

(** An environment for the identity endpoints: the answers of
    [create_user], of [get_user_by_email] and of the profile write. *)
Definition identity_env (created found : pyres UserRecord) (profile_set : pyres unit)
  : Env :=
  {| EDAMAM_APP_ID := None; EDAMAM_APP_KEY := None;
     gemini_model := None; spotify := None;
     create_user := λ _ _, created;
     get_user_by_email := λ _, found;
     document_set := λ _ _, profile_set;
     collection_add := λ _ _, inl unavailable;
     post := λ _ _ _ _, inl unavailable |}.

Definition example_register : RegisterRequest :=
  {| reg_email := "user@example.com"; reg_password := "securepassword123";
     reg_name := "Jane Doe" |}.

Definition example_user : UserRecord :=
  {| uid := "someFirebaseUserUID"; email := "user@example.com" |}.

Definition email_exists : exn :=
  Exn Exception_cls "auth/email-already-exists: the email address is already in use".

(** What [auth.create_user] of firebase_admin raises for an email that is
    already registered, with the message the SDK gives it. *)
Definition EmailAlreadyExistsError : exn :=
  Exn Exception_cls "The user with the provided email already exists (EMAIL_EXISTS).".

Definition permission_denied : exn :=
  Exn Exception_cls "403 Missing or insufficient permissions.".

Definition user_not_found : exn :=
  Exn UserNotFoundError_cls "No user record found for the provided email: user@example.com.".

(** An environment for [analyze_nutrition]: the two credentials and the
    answer of the nutrition service. *)
Definition nutrition_env (app_id app_key : option string) (answer : pyres Response)
  : Env :=
  {| EDAMAM_APP_ID := app_id; EDAMAM_APP_KEY := app_key;
     gemini_model := None; spotify := None;
     create_user := λ _ _, inl unavailable;
     get_user_by_email := λ _, inl unavailable;
     document_set := λ _ _, inl unavailable;
     collection_add := λ _ _, inl unavailable;
     post := λ _ _ _ _, answer |}.

Definition example_nutrition : pyval :=
  PyDict [("calories", PyInt 205); ("totalWeight", PyFloat 158.0)].

Definition example_ingredients : list NutritionIngredient :=
  [{| ingredient := "1 cup cooked rice" |}; {| ingredient := "2 eggs" |}].

Definition bad_request_response : Response :=
  {| raise_for_status :=
       inl (Exn RequestException_cls
              "400 Client Error: Bad Request for url: https://api.edamam.com/api/nutrition-details");
     json := inr PyNone |}.

Definition example_client : Client :=
  {| client_document_set := λ _ _, inr ();
     client_collection_add := λ _ _, inr () |}.

(** A machine with the key file and the Firebase path set, and nothing
    else: no Edamam, Gemini or Spotify setting. *)
Definition bare_platform : Platform unit unit :=
  {| environ := {[ "FIREBASE_PRIVATE_KEY_PATH" := "fitz_backend/serviceAccountKey.json" ]};
     path_exists := λ path, String.eqb path "fitz_backend/serviceAccountKey.json";
     Certificate := λ _, inr ();
     initialize_app := λ _, inr ();
     firestore_client := inr example_client;
     genai_configure := λ _, inr ();
     new_GenerativeModel := λ _, inr (model_replying "Day 1: squats");
     SpotifyClientCredentials := λ _ _, inr ();
     new_Spotify := λ _, inl unavailable;
     auth_module_create_user := λ _ _, inl unavailable;
     auth_module_get_user_by_email := λ _, inl unavailable;
     requests_module_post := λ _ _ _ _, inl unavailable |}.

(** A machine without the Firebase path. *)
Definition unset_platform : Platform unit unit :=
  {| environ := {[ "GEMINI_API_KEY" := "key" ]};
     path_exists := λ _, true;
     Certificate := λ _, inr ();
     initialize_app := λ _, inr ();
     firestore_client := inr example_client;
     genai_configure := λ _, inr ();
     new_GenerativeModel := λ _, inr (model_replying "Day 1: squats");
     SpotifyClientCredentials := λ _ _, inr ();
     new_Spotify := λ _, inl unavailable;
     auth_module_create_user := λ _ _, inl unavailable;
     auth_module_get_user_by_email := λ _, inl unavailable;
     requests_module_post := λ _ _ _ _, inl unavailable |}.

(** * Properties *)

Ltac unfold_M :=
  unfold try_except, generate, plans_add, users_set, auth_create, auth_lookup,
    external, eval, mbind, M_bind, mret, M_ret, mthrow, M_throw in *.

(** ** The monad laws, at every world *)

Lemma M_left_identity {E A B} (a : A) (f : A → M E B) (w : World) :
  (mret a ≫= f) w = f a w.
Proof. reflexivity. Qed.

Lemma M_right_identity {E A} (m : M E A) (w : World) :
  (m ≫= mret) w = m w.
Proof. unfold mbind, M_bind, mret, M_ret. by destruct (m w) as [[e|a] w']. Qed.

Lemma M_associativity {E A B C} (m : M E A) (f : A → M E B) (g : B → M E C)
    (w : World) :
  ((m ≫= f) ≫= g) w = (m ≫= (λ a, f a ≫= g)) w.
Proof. unfold mbind, M_bind. by destruct (m w) as [[e|a] w']. Qed.

(** An exception passes the rest of a block by, and [try] hands it, with
    the world it left, to the handler. *)
Lemma M_throw_bind {E A B} (e : E) (f : A → M E B) (w : World) :
  (mthrow e ≫= f) w = (inl e, w).
Proof. reflexivity. Qed.

Lemma try_except_throw {E E' A} (e : E) (handler : E → M E' A) (w : World) :
  try_except (mthrow e) handler w = handler e w.
Proof. reflexivity. Qed.

(** ** [in] on strings is containment *)

Lemma append_String (c : Ascii.ascii) (a b : string) :
  String c a +:+ b = String c (a +:+ b).
Proof. reflexivity. Qed.

Lemma prefix_app (n h : string) :
  String.prefix n h = true ↔ ∃ b, h = n +:+ b.
Proof.
  revert h. induction n as [|c n IH]; intros h; simpl.
  - destruct h; split; eauto.
  - destruct h as [|c' h]; simpl.
    + split; [discriminate | intros [b Hb]; discriminate].
    + destruct (Ascii.ascii_dec c c') as [->|Hne].
      * rewrite IH. split; intros [b Hb]; exists b;
          rewrite append_String in *; congruence.
      * split; [discriminate |].
        intros [b Hb]. rewrite append_String in Hb. congruence.
Qed.

Lemma py_in_spec (needle hay : string) :
  py_in needle hay = true ↔ ∃ a b, hay = a +:+ needle +:+ b.
Proof.
  induction hay as [|c hay IH]; cbn [py_in].
  - rewrite orb_false_r, prefix_app. split.
    + intros [b Hb]. exists EmptyString, b. exact Hb.
    + intros [a [b Hab]]. destruct a; [eauto | discriminate].
  - rewrite orb_true_iff, prefix_app, IH. split.
    + intros [[b Hb] | [a [b Hab]]].
      * exists EmptyString, b. exact Hb.
      * exists (String c a), b. rewrite append_String. congruence.
    + intros [[|c' a] [b Hab]].
      * left. eauto.
      * right. exists a, b. rewrite append_String in Hab. congruence.
Qed.

(** ** The loop over the search result *)

Lemma spotify_error_is_marker (se : exn) : is_error_marker (spotify_error se) = true.
Proof. unfold spotify_error. destruct (exn_cls se); reflexivity. Qed.

Lemma playlist_suggestion_not_marker (playlist s : pyval) :
  playlist_suggestion playlist = inr s → is_error_marker s = false.
Proof.
  unfold playlist_suggestion, mbind, pyres_bind, mret, pyres_ret. intros H.
  repeat match type of H with
         | match ?x with _ => _ end = _ => destruct x; try discriminate
         end.
  all: by inversion H.
Qed.

Lemma suggested_length (items l : list pyval) :
  suggested items l → length l = length items.
Proof. intros H. symmetry. exact (Forall2_length _ _ _ H). Qed.

Lemma suggested_no_marker (items l : list pyval) :
  suggested items l → Forall (λ s, is_error_marker s = false) l.
Proof.
  induction 1 as [|p s items l Hp _ IH]; constructor; [|exact IH].
  exact (playlist_suggestion_not_marker _ _ Hp).
Qed.

(** The loop appends the dict of every item when none raises. *)
Lemma append_suggestions_all (items l acc : list pyval) :
  suggested items l → append_suggestions items acc = (None, acc ++ l).
Proof.
  intros H. revert acc.
  induction H as [|p s items l Hp _ IH]; intros acc; simpl.
  - by rewrite app_nil_r.
  - rewrite Hp, IH, <- app_assoc. reflexivity.
Qed.

(** However it ends, the loop has appended the dicts of the items before
    the one that raised, and of all of them when none did. *)
Lemma append_suggestions_spec (items acc : list pyval) :
  ∃ before l,
    suggested before l ∧
    snd (append_suggestions items acc) = acc ++ l ∧
    match fst (append_suggestions items acc) with
    | None => items = before
    | Some se => ∃ playlist rest,
        items = before ++ playlist :: rest ∧ playlist_suggestion playlist = inl se
    end.
Proof.
  revert acc. induction items as [|p items IH]; intros acc; simpl.
  - exists [], []. split; [constructor|]. by rewrite app_nil_r.
  - destruct (playlist_suggestion p) as [se|s] eqn:Hp; simpl.
    + exists [], []. split; [constructor|]. rewrite app_nil_r. split; [done|].
      by exists p, items.
    + destruct (IH (acc ++ [s])) as (before' & l & Hs & Hl & Hr).
      exists (p :: before'), (s :: l). split; [by constructor|].
      rewrite Hl, <- app_assoc. split; [done|].
      destruct (fst (append_suggestions items (acc ++ [s]))).
      * destruct Hr as (q & rest & -> & Hq). by exists q, rest.
      * by rewrite Hr.
Qed.

Lemma append_suggestions_stop (before l rest acc : list pyval) (playlist : pyval) (se : exn) :
  suggested before l → playlist_suggestion playlist = inl se →
  append_suggestions (before ++ playlist :: rest) acc = (Some se, acc ++ l).
Proof.
  intros H Hp. revert acc.
  induction H as [|p s before l Hs _ IH]; intros acc; simpl.
  - by rewrite Hp, app_nil_r.
  - rewrite Hs, IH, <- app_assoc. reflexivity.
Qed.

(** ** The catalog step *)

Lemma music_playlist_unconfigured env request_data w :
  spotify env = None →
  music_playlist env request_data w = (inr [spotify_not_initialized], w).
Proof. intros H. unfold music_playlist. by rewrite H. Qed.

Section Catalog.
Variables (env : Env) (sp : Spotify) (request_data : GeneratePlanRequest).
Hypothesis Hspotify : spotify env = Some sp.

Lemma music_playlist_found results items l w :
  search sp (search_query request_data) "playlist" 5 = inr results →
  playlist_items results = inr items →
  suggested items l →
  music_playlist env request_data w = (inr l, log (search_call request_data) w).
Proof.
  intros Hs Hi Hl. unfold music_playlist, spotify_try.
  rewrite Hspotify, Hs, Hi, (append_suggestions_all _ _ _ Hl). reflexivity.
Qed.

Lemma music_playlist_raises se l w :
  catalog_raises sp request_data se l →
  music_playlist env request_data w
  = (inr (l ++ [spotify_error se]), log (search_call request_data) w).
Proof.
  intros H. unfold music_playlist, spotify_try. rewrite Hspotify.
  destruct H as [se Hs | results se Hs Hi | results before p rest l se Hs Hi Hl Hp].
  - by rewrite Hs.
  - by rewrite Hs, Hi.
  - by rewrite Hs, Hi, (append_suggestions_stop _ _ _ _ _ _ Hl Hp).
Qed.

Lemma catalog_raises_no_marker se l :
  catalog_raises sp request_data se l → Forall (λ s, is_error_marker s = false) l.
Proof.
  destruct 1 as [| |results before p rest l se _ _ Hl _]; [constructor..|].
  exact (suggested_no_marker _ _ Hl).
Qed.

(** Every search ends in one of the two ways: each item of the result
    gives its dict, or the call or the handling raises. *)
Lemma catalog_outcome :
  (∃ results items l,
     search sp (search_query request_data) "playlist" 5 = inr results ∧
     playlist_items results = inr items ∧ suggested items l) ∨
  (∃ se l, catalog_raises sp request_data se l).
Proof.
  destruct (search sp (search_query request_data) "playlist" 5)
    as [se|results] eqn:Hs.
  { right. exists se, []. by apply search_raises. }
  destruct (playlist_items results) as [se|items] eqn:Hi.
  { right. exists se, []. by apply (items_raise _ _ results). }
  destruct (append_suggestions_spec items []) as (before & l & Hl & _ & Hr).
  destruct (fst (append_suggestions items [])) as [se|].
  - destruct Hr as (p & rest & -> & Hp). right. exists se, l.
    by apply (playlist_raises _ _ results before p rest).
  - subst before. left. by exists results, items, l.
Qed.
End Catalog.

(** The catalog step never raises, stores nothing, and leaves a list that
    does not depend on the world it runs in. *)
Lemma music_playlist_total env request_data w :
  ∃ l, (∀ w', fst (music_playlist env request_data w') = inr l) ∧
       music_playlist env request_data w
       = (inr l, match spotify env with
                 | Some _ => log (search_call request_data) w
                 | None => w
                 end).
Proof.
  unfold music_playlist, spotify_try.
  destruct (spotify env) as [sp|]; [|by eexists].
  destruct (search sp _ _ _) as [se|results]; [by eexists|].
  destruct (playlist_items results) as [se|items]; [by eexists|].
  destruct (append_suggestions items []) as [[se|] l]; by eexists.
Qed.

(** ** One run of the body of [generate_plan] *)

(** The body of the outer [try], step by step: the first call that raises
    ends it; the record is added last, and the [await] of what [add]
    returned then ends it. *)
Lemma generate_plan_try_run env model request_data w :
  match generated_text model (workout_prompt_of request_data) with
  | inl e =>
      generate_plan_try env model request_data w
      = (inl e, log (gemini_generate_content (workout_prompt_of request_data)) w)
  | inr workout_plan =>
      match generated_text model (diet_prompt_of request_data) with
      | inl e =>
          generate_plan_try env model request_data w
          = (inl e, after_texts request_data w)
      | inr diet_general_info =>
          ∃ l, (∀ w', fst (music_playlist env request_data w') = inr l) ∧
            let doc := plan_record request_data workout_plan diet_general_info l in
            let w3 := log (db_users_plans_add (user_uid request_data) doc)
                          (after_catalog env request_data (after_texts request_data w)) in
            match collection_add env (user_uid request_data) doc with
            | inl e => generate_plan_try env model request_data w = (inl e, w3)
            | inr _ =>
                generate_plan_try env model request_data w
                = (inl (await_error "tuple"),
                   add_plan (user_uid request_data) doc w3)
            end
      end
  end.
Proof.
  unfold generate_plan_try, generated_text, after_texts, workout_prompt_of,
    diet_prompt_of, mbind at 1 2, pyres_bind.
  unfold_M.
  destruct (generate_content model (workout_prompt _ _ _)) as [e|r1]; [done|].
  destruct (text r1) as [e|workout_plan]; [done|].
  destruct (generate_content model (diet_initial_prompt _ _ _)) as [e|r2]; [done|].
  destruct (text r2) as [e|diet_general_info]; [done|].
  destruct (music_playlist_total env request_data
              (log (gemini_generate_content
                      (diet_initial_prompt (current_weight request_data)
                         (target_weight request_data) (duration_weeks request_data)))
                 (log (gemini_generate_content
                         (workout_prompt (current_weight request_data)
                            (target_weight request_data) (duration_weeks request_data)))
                    w))) as (l & Hl & Hrun).
  exists l. split; [exact Hl|]. rewrite Hrun. unfold after_catalog. simpl.
  destruct (collection_add env _ _) as [e|[]]; reflexivity.
Qed.

Lemma plans_after_catalog env request_data w :
  plans (after_catalog env request_data w) = plans w.
Proof. unfold after_catalog. by destruct (spotify env). Qed.

Lemma stores_after_catalog env request_data w :
  users (after_catalog env request_data w) = users w ∧
  auth_users (after_catalog env request_data w) = auth_users w.
Proof. unfold after_catalog. by destruct (spotify env). Qed.

Lemma calls_after_catalog env request_data w :
  calls (after_catalog env request_data w)
  = calls w ++ match spotify env with
               | Some _ => [search_call request_data]
               | None => []
               end.
Proof. unfold after_catalog. destruct (spotify env); simpl; [done|by rewrite app_nil_r]. Qed.


Lemma plans_of_add_plan_eq u doc w :
  plans_of (add_plan u doc w) u = plans_of w u ++ [doc].
Proof. unfold plans_of at 1. simpl. by rewrite lookup_insert_eq. Qed.


(** ** A request with the model configured *)

Section PlanRun.
Variables (env : Env) (model : GenerativeModel) (request_data : GeneratePlanRequest).
Hypothesis Hmodel : gemini_model env = Some model.

(** The [except] clauses of the outer [try], applied to the run of its body. *)
Lemma generate_plan_configured w :
  generate_plan env request_data w
  = match generate_plan_try env model request_data w with
    | (inl e, w') =>
        (inl match exn_cls e with
             | HTTPException_cls h => h
             | _ => internal_error e
             end, w')
    | (inr body, w') => (inr body, w')
    end.
Proof.
  unfold generate_plan. rewrite Hmodel. unfold_M.
  destruct (generate_plan_try env model request_data w) as [[e|body] w']; [|done].
  by destruct (exn_cls e).
Qed.

(** Both texts generated, the catalog step leaving [l], the record stored
    by [add]: the [await] raises, and the request fails with the 500
    HTTPException, the record having been added. *)
Lemma generate_plan_written w workout_plan diet_general_info l :
  generated_text model (workout_prompt_of request_data) = inr workout_plan →
  generated_text model (diet_prompt_of request_data) = inr diet_general_info →
  (∀ w1, fst (music_playlist env request_data w1) = inr l) →
  collection_add env (user_uid request_data)
    (plan_record request_data workout_plan diet_general_info l) = inr () →
  generate_plan env request_data w
  = (inl (internal_error (await_error "tuple")),
     add_plan (user_uid request_data)
       (plan_record request_data workout_plan diet_general_info l)
       (log (db_users_plans_add (user_uid request_data)
               (plan_record request_data workout_plan diet_general_info l))
          (after_catalog env request_data (after_texts request_data w)))).
Proof.
  intros Hwp Hdp Hl Hadd. rewrite generate_plan_configured.
  pose proof (generate_plan_try_run env model request_data w) as Hrun.
  rewrite Hwp, Hdp in Hrun. destruct Hrun as (l' & Hl' & Hrun). cbn zeta in Hrun.
  specialize (Hl w). rewrite (Hl' w) in Hl. injection Hl as ->.
  rewrite Hadd in Hrun. by rewrite Hrun.
Qed.

(** Both texts generated, the catalog step leaving [l]: the request gets
    as far as the call of [add], its last call, with the record of the
    texts and of [l]; and the record is under the user when [add] returns. *)
Lemma generate_plan_add_called w workout_plan diet_general_info l :
  generated_text model (workout_prompt_of request_data) = inr workout_plan →
  generated_text model (diet_prompt_of request_data) = inr diet_general_info →
  (∀ w1, fst (music_playlist env request_data w1) = inr l) →
  calls (snd (generate_plan env request_data w))
  = calls (after_catalog env request_data (after_texts request_data w))
    ++ [db_users_plans_add (user_uid request_data)
          (plan_record request_data workout_plan diet_general_info l)] ∧
  (collection_add env (user_uid request_data)
     (plan_record request_data workout_plan diet_general_info l) = inr () →
   plans_of (snd (generate_plan env request_data w)) (user_uid request_data)
   = plans_of w (user_uid request_data)
     ++ [plan_record request_data workout_plan diet_general_info l]).
Proof.
  intros Hwp Hdp Hl. rewrite generate_plan_configured.
  pose proof (generate_plan_try_run env model request_data w) as Hrun.
  rewrite Hwp, Hdp in Hrun. destruct Hrun as (l' & Hl' & Hrun). cbn zeta in Hrun.
  specialize (Hl w). rewrite (Hl' w) in Hl. injection Hl as ->.
  destruct (collection_add env _ _) as [e|[]]; rewrite Hrun.
  - split; [by destruct (exn_cls e) | intros [=]].
  - split; [done|]. intros _. simpl snd. rewrite plans_of_add_plan_eq.
    unfold plans_of. simpl. by rewrite plans_after_catalog.
Qed.

(** Every request fails: one of the three calls raised, or [add] returned
    and the [await] raised. *)
Lemma generate_plan_fails w :
  ∃ e,
    fst (generate_plan env request_data w)
    = inl match exn_cls e with
          | HTTPException_cls h => h
          | _ => internal_error e
          end ∧
    (plan_raises env model request_data e ∨
     e = await_error "tuple" ∧
     ∃ workout_plan diet_general_info l,
       generated_text model (workout_prompt_of request_data) = inr workout_plan ∧
       generated_text model (diet_prompt_of request_data) = inr diet_general_info ∧
       (∀ w1, fst (music_playlist env request_data w1) = inr l) ∧
       collection_add env (user_uid request_data)
         (plan_record request_data workout_plan diet_general_info l) = inr ()).
Proof.
  rewrite generate_plan_configured.
  pose proof (generate_plan_try_run env model request_data w) as Hrun.
  destruct (generated_text model (workout_prompt_of request_data)) as [e|wp] eqn:Hwp.
  { rewrite Hrun. exists e. split; [done|]. left. by apply workout_raises. }
  destruct (generated_text model (diet_prompt_of request_data)) as [e|dp] eqn:Hdp.
  { rewrite Hrun. exists e. split; [done|]. left. by apply (diet_raises _ _ _ wp). }
  destruct Hrun as (l & Hl & Hrun). cbn zeta in Hrun.
  destruct (collection_add env _ _) as [e|[]] eqn:Hadd; rewrite Hrun.
  - exists e. split; [done|]. left. by apply (persistence_raises _ _ _ wp dp l).
  - exists (await_error "tuple"). split; [done|]. right. split; [done|].
    by exists wp, dp, l.
Qed.
End PlanRun.

(** [generate_plan] never returns: it raises an HTTPException on every
    request. *)
Lemma generate_plan_never_returns env request_data w :
  ∃ h, fst (generate_plan env request_data w) = inl h.
Proof.
  destruct (gemini_model env) as [model|] eqn:Hm.
  - destruct (generate_plan_fails _ _ request_data Hm w) as (e & -> & _). by eexists.
  - unfold generate_plan. rewrite Hm. by eexists.
Qed.

(** What one request does to the stores: nothing, or, both texts
    generated and [add] having returned, the one record added under the
    user. *)
Lemma generate_plan_effect env request_data w :
  users (snd (generate_plan env request_data w)) = users w ∧
  auth_users (snd (generate_plan env request_data w)) = auth_users w ∧
  (plans (snd (generate_plan env request_data w)) = plans w ∨
   ∃ model workout_plan diet_general_info l,
     gemini_model env = Some model ∧
     generated_text model (workout_prompt_of request_data) = inr workout_plan ∧
     generated_text model (diet_prompt_of request_data) = inr diet_general_info ∧
     (∀ w1, fst (music_playlist env request_data w1) = inr l) ∧
     collection_add env (user_uid request_data)
       (plan_record request_data workout_plan diet_general_info l) = inr () ∧
     plans (snd (generate_plan env request_data w))
     = <[user_uid request_data :=
           plans_of w (user_uid request_data)
           ++ [plan_record request_data workout_plan diet_general_info l]]> (plans w)).
Proof.
  destruct (gemini_model env) as [model|] eqn:Hm.
  2:{ unfold generate_plan. rewrite Hm. simpl. auto. }
  rewrite (generate_plan_configured _ _ _ Hm).
  pose proof (generate_plan_try_run env model request_data w) as Hrun.
  destruct (generated_text model (workout_prompt_of request_data)) as [e|wp] eqn:Hwp.
  { rewrite Hrun. simpl. auto. }
  destruct (generated_text model (diet_prompt_of request_data)) as [e|dp] eqn:Hdp.
  { rewrite Hrun. simpl. auto. }
  destruct Hrun as (l & Hl & Hrun). cbn zeta in Hrun.
  destruct (stores_after_catalog env request_data (after_texts request_data w))
    as [Hu Ha].
  destruct (collection_add env _ _) as [e|[]] eqn:Hadd; rewrite Hrun; simpl.
  - rewrite plans_after_catalog. auto.
  - split; [done|]. split; [done|]. right. exists model, wp, dp, l.
    repeat (split; [done|]). unfold plans_of. simpl. by rewrite plans_after_catalog.
Qed.

(** ** The dict of a playlist, on examples *)

Example playlist_suggestion_example :
  playlist_suggestion example_playlist = inr example_suggestion.
Proof. reflexivity. Qed.

(** A playlist without images has [None] as its image, one without a
    description the default text. *)
Example playlist_suggestion_defaults :
  playlist_suggestion
    (PyDict [("name", PyStr "Run");
             ("external_urls", PyDict [("spotify", PyStr "https://open.spotify.com/playlist/2")]);
             ("images", PyList []);
             ("owner", PyDict [("display_name", PyStr "dj")]);
             ("tracks", PyDict [("total", PyInt 12)])])
  = inr (PyDict [("name", PyStr "Run");
                 ("description", PyStr "No description available");
                 ("spotify_url", PyStr "https://open.spotify.com/playlist/2");
                 ("image_url", PyNone);
                 ("owner", PyStr "dj");
                 ("tracks_count", PyInt 12)]).
Proof. reflexivity. Qed.

(** A [null] among the items raises, as does a playlist without a name. *)
Example playlist_suggestion_null :
  playlist_suggestion PyNone
  = inl (Exn TypeError_cls "'NoneType' object is not subscriptable").
Proof. reflexivity. Qed.

Example playlist_suggestion_no_name :
  playlist_suggestion (PyDict [("description", PyStr "x")])
  = inl (Exn KeyError_cls "'name'").
Proof. reflexivity. Qed.

(** ** generate_plan: the model is not configured *)

(** C3. When [gemini_model] is [None], [generate_plan] raises the 503
    HTTPException at once and the world is left as it was: no call to the
    model, to the catalog or to the record store is logged, and the stores
    are unchanged. *)
Theorem C3_generate_plan_unavailable env request_data w :
  gemini_model env = None →
  generate_plan env request_data w
  = (inl {| status_code := HTTP_503_SERVICE_UNAVAILABLE;
            detail := "AI model (Gemini) is not initialized. Please check GEMINI_API_KEY." |},
     w) ∧
  response_status HTTP_200_OK (fst (generate_plan env request_data w)) = 503%Z ∧
  calls (snd (generate_plan env request_data w)) = calls w ∧
  plans (snd (generate_plan env request_data w)) = plans w.
Proof.
  intros H. unfold generate_plan. rewrite H. by cbn.
Qed.

Lemma C3_witness :
  gemini_model (plan_env None (Some (catalog_returning (search_result [])))
                  (inr ())) = None ∧
  generate_plan (plan_env None (Some (catalog_returning (search_result []))) (inr ()))
    example_request empty_world
  = (inl {| status_code := HTTP_503_SERVICE_UNAVAILABLE;
            detail := "AI model (Gemini) is not initialized. Please check GEMINI_API_KEY." |},
     empty_world).
Proof.
  split; [reflexivity|].
  apply (C3_generate_plan_unavailable
           (plan_env None (Some (catalog_returning (search_result []))) (inr ()))
           example_request empty_world).
  reflexivity.
Defined.

(** ** generate_plan: the catalog client is not configured *)

(** C8 (the code departs from it). With the model configured and
    [spotify] [None], no search call is ever added to the log. When both
    texts are generated and [add] stores the record, the record added
    under the user holds the two texts and, as its playlist suggestions,
    the "not initialized" marker alone, and the calls made are the two
    generations and the write. But the request does not return them: the
    [await] of line 230 raises on what [add] returned, and
    [generate_plan] raises the 500 HTTPException. *)
Theorem C8_generate_plan_catalog_unconfigured env model request_data w :
  gemini_model env = Some model →
  spotify env = None →
  List.filter is_search (calls (snd (generate_plan env request_data w)))
  = List.filter is_search (calls w) ∧
  ∀ workout_plan diet_general_info,
    generated_text model (workout_prompt_of request_data) = inr workout_plan →
    generated_text model (diet_prompt_of request_data) = inr diet_general_info →
    (∀ doc, collection_add env (user_uid request_data) doc = inr ()) →
    fst (generate_plan env request_data w)
    = inl {| status_code := 500;
             detail := "An internal error occurred while generating the plan: object tuple can't be used in 'await' expression" |} ∧
    response_status HTTP_200_OK (fst (generate_plan env request_data w)) = 500%Z ∧
    ∃ doc,
      plans_of (snd (generate_plan env request_data w)) (user_uid request_data)
      = plans_of w (user_uid request_data) ++ [doc] ∧
      rec_workout_plan doc = workout_plan ∧
      rec_diet_general_info doc = diet_general_info ∧
      rec_music_playlist_suggestions doc
      = [PyDict [("error",
                  PyStr "Spotify API not initialized. Check server logs for credential errors.")]] ∧
      calls (snd (generate_plan env request_data w))
      = calls w ++ [gemini_generate_content (workout_prompt_of request_data);
                    gemini_generate_content (diet_prompt_of request_data);
                    db_users_plans_add (user_uid request_data) doc].
Proof.
  intros Hm Hs. split.
  - rewrite (generate_plan_configured _ _ _ Hm).
    pose proof (generate_plan_try_run env model request_data w) as Hrun.
    destruct (generated_text model (workout_prompt_of request_data)) as [e|wp].
    { rewrite Hrun. simpl. by repeat (rewrite ?List.filter_app, ?app_nil_r; simpl). }
    destruct (generated_text model (diet_prompt_of request_data)) as [e|dp].
    { rewrite Hrun. simpl. by repeat (rewrite ?List.filter_app, ?app_nil_r; simpl). }
    destruct Hrun as (l & _ & Hrun). cbn zeta in Hrun.
    destruct (collection_add env _ _) as [e|u]; rewrite Hrun; simpl;
      rewrite calls_after_catalog, Hs;
      by repeat (rewrite ?List.filter_app, ?app_nil_r; simpl).
  - intros wp dp Hwp Hdp Hadd.
    assert (Hl : ∀ w1, fst (music_playlist env request_data w1)
                       = inr [spotify_not_initialized]).
    { intros w1. by rewrite (music_playlist_unconfigured _ _ _ Hs). }
    rewrite (generate_plan_written _ _ _ Hm w _ _ _ Hwp Hdp Hl (Hadd _)).
    split; [done|]. split; [done|].
    exists (plan_record request_data wp dp [spotify_not_initialized]).
    split; [|split; [done|split; [done|split; [done|]]]].
    + simpl snd. rewrite plans_of_add_plan_eq. unfold plans_of. simpl.
      by rewrite plans_after_catalog.
    + simpl. rewrite calls_after_catalog, Hs. simpl.
      rewrite app_nil_r, <- !app_assoc. reflexivity.
Qed.

Lemma C8_witness :
  gemini_model no_catalog_env = Some (model_replying "Day 1: squats") ∧
  spotify no_catalog_env = None ∧
  fst (generate_plan no_catalog_env example_request empty_world)
  = inl {| status_code := 500;
           detail := "An internal error occurred while generating the plan: object tuple can't be used in 'await' expression" |}.
Proof.
  split; [reflexivity|]. split; [reflexivity|].
  exact (proj1 (proj2 (C8_generate_plan_catalog_unconfigured no_catalog_env
                         (model_replying "Day 1: squats") example_request empty_world
                         eq_refl eq_refl)
                  "Day 1: squats" "Day 1: squats" eq_refl eq_refl (λ _, eq_refl))).
Defined.

(** ** generate_plan: the request of the example values *)



(** ** generate_plan: a failing request *)

(** C1 (the code departs from it). With the model configured: an
    exception, other than an HTTPException, raised by one of the two
    text-generation calls ends the request with the 500 HTTPException
    carrying its message, and then nothing was written: no call of [add],
    no new plan. But a failure at the persistence step does not leave the
    store as it was: when both texts are generated and [add] stores the
    record, the [await] of line 230 raises, the request ends with the 500
    HTTPException, and the new record, holding both texts, is under the
    user. *)
Theorem C1_generate_plan_failure env model request_data w :
  gemini_model env = Some model →
  (∀ e,
     generated_text model (workout_prompt_of request_data) = inl e ∨
     (∃ workout_plan,
        generated_text model (workout_prompt_of request_data) = inr workout_plan ∧
        generated_text model (diet_prompt_of request_data) = inl e) →
     is_HTTPException e = false →
     fst (generate_plan env request_data w)
     = inl {| status_code := 500;
              detail := "An internal error occurred while generating the plan: "
                        +:+ exn_str e |} ∧
     plans (snd (generate_plan env request_data w)) = plans w ∧
     List.filter is_add (calls (snd (generate_plan env request_data w)))
     = List.filter is_add (calls w)) ∧
  (∀ workout_plan diet_general_info,
     generated_text model (workout_prompt_of request_data) = inr workout_plan →
     generated_text model (diet_prompt_of request_data) = inr diet_general_info →
     (∀ doc, collection_add env (user_uid request_data) doc = inr ()) →
     fst (generate_plan env request_data w)
     = inl {| status_code := 500;
              detail := "An internal error occurred while generating the plan: object tuple can't be used in 'await' expression" |} ∧
     response_status HTTP_200_OK (fst (generate_plan env request_data w)) = 500%Z ∧
     ∃ doc,
       plans_of (snd (generate_plan env request_data w)) (user_uid request_data)
       = plans_of w (user_uid request_data) ++ [doc] ∧
       rec_workout_plan doc = workout_plan ∧
       rec_diet_general_info doc = diet_general_info).
Proof.
  intros Hm. split.
  - intros e He Hnot. rewrite (generate_plan_configured _ _ _ Hm).
    pose proof (generate_plan_try_run env model request_data w) as Hrun.
    unfold is_HTTPException in Hnot.
    destruct He as [Hwp | (wp & Hwp & Hdp)]; rewrite Hwp in Hrun;
      [|rewrite Hdp in Hrun]; rewrite Hrun; simpl;
      (split; [by destruct (exn_cls e)|]); (split; [done|]);
      by repeat (rewrite ?List.filter_app, ?app_nil_r; simpl).
  - intros wp dp Hwp Hdp Hadd.
    destruct (music_playlist_total env request_data w) as (l & Hl & _).
    rewrite (generate_plan_written _ _ _ Hm w _ _ _ Hwp Hdp Hl (Hadd _)).
    split; [done|]. split; [done|].
    exists (plan_record request_data wp dp l). split; [|done].
    simpl snd. rewrite plans_of_add_plan_eq. unfold plans_of. simpl.
    by rewrite plans_after_catalog.
Qed.

Lemma C1_witness :
  gemini_model no_catalog_env = Some (model_replying "Day 1: squats") ∧
  response_status HTTP_200_OK
    (fst (generate_plan no_catalog_env example_request empty_world)) = 500%Z ∧
  ∃ doc,
    plans_of (snd (generate_plan no_catalog_env example_request empty_world))
      "someFirebaseUserUID" = [doc] ∧
    rec_workout_plan doc = "Day 1: squats".
Proof.
  split; [reflexivity|].
  destruct (proj2 (C1_generate_plan_failure no_catalog_env
                     (model_replying "Day 1: squats") example_request empty_world
                     eq_refl)
              "Day 1: squats" "Day 1: squats" eq_refl eq_refl (λ _, eq_refl))
    as (_ & Hstatus & doc & Hplans & Hwp & _).
  split; [exact Hstatus|]. exists doc. split; [exact Hplans | exact Hwp].
Defined.

(** ** generate_plan: the catalog step *)

(** C2, amended. With the model and the catalog client configured and
    both texts generated: when the search call or the handling of its
    result raises, the exception does not end the request. The catalog
    step leaves the dicts appended before the exception, none of them an
    error marker, followed by one error marker (the marker alone when it
    is the search call that raised); the request goes on to the write,
    its last call, and the record it hands to [add] holds that list and
    the two texts; and that record is under the user when [add] returns. *)
Theorem C2_generate_plan_catalog_failure env model sp request_data w se l
    workout_plan diet_general_info :
  gemini_model env = Some model →
  spotify env = Some sp →
  catalog_raises sp request_data se l →
  generated_text model (workout_prompt_of request_data) = inr workout_plan →
  generated_text model (diet_prompt_of request_data) = inr diet_general_info →
  fst (music_playlist env request_data w) = inr (l ++ [spotify_error se]) ∧
  is_error_marker (spotify_error se) = true ∧
  Forall (λ s, is_error_marker s = false) l ∧
  (∀ se', search sp (search_query request_data) "playlist" 5 = inl se' → l = []) ∧
  ∃ doc,
    last (calls (snd (generate_plan env request_data w)))
    = Some (db_users_plans_add (user_uid request_data) doc) ∧
    rec_music_playlist_suggestions doc = l ++ [spotify_error se] ∧
    rec_workout_plan doc = workout_plan ∧
    rec_diet_general_info doc = diet_general_info ∧
    (collection_add env (user_uid request_data) doc = inr () →
     plans_of (snd (generate_plan env request_data w)) (user_uid request_data)
     = plans_of w (user_uid request_data) ++ [doc]).
Proof.
  intros Hm Hsp Hc Hwp Hdp.
  assert (Hl : ∀ w1, fst (music_playlist env request_data w1)
                     = inr (l ++ [spotify_error se])).
  { intros w1. by rewrite (music_playlist_raises _ _ _ Hsp _ _ w1 Hc). }
  destruct (generate_plan_add_called _ _ _ Hm w _ _ _ Hwp Hdp Hl) as [Hcalls Hplans].
  split; [apply Hl|]. split; [apply spotify_error_is_marker|].
  split; [exact (catalog_raises_no_marker _ _ _ _ Hc)|]. split.
  - intros se' Hs. destruct Hc as [| |results before p rest l se Hs' _ _ _];
      [done | done | congruence].
  - exists (plan_record request_data workout_plan diet_general_info
              (l ++ [spotify_error se])).
    split; [by rewrite Hcalls, last_snoc|]. by repeat (split; [done|]).
Qed.

Lemma null_item_raises :
  catalog_raises (catalog_returning (search_result [example_playlist; PyNone]))
    example_request null_item_error [example_suggestion].
Proof.
  apply (playlist_raises _ _ (search_result [example_playlist; PyNone])
           [example_playlist] PyNone []); try reflexivity.
  repeat constructor.
Defined.

Lemma C2_witness :
  catalog_raises (catalog_returning (search_result [example_playlist; PyNone]))
    example_request null_item_error [example_suggestion] ∧
  fst (music_playlist null_item_env example_request empty_world)
  = inr ([example_suggestion] ++ [spotify_error null_item_error]).
Proof.
  split; [exact null_item_raises|].
  exact (proj1 (C2_generate_plan_catalog_failure null_item_env
                  (model_replying "Day 1: squats")
                  (catalog_returning (search_result [example_playlist; PyNone]))
                  example_request empty_world null_item_error [example_suggestion]
                  "Day 1: squats" "Day 1: squats"
                  eq_refl eq_refl null_item_raises eq_refl eq_refl)).
Defined.

(** C2, as stated, fails: when the second item of the search result is
    [None], the handling raises after the first playlist's dict was
    appended; the list the catalog step leaves, and the record stored
    holds, has two elements, the playlist and then the error marker; and
    the request is answered with 500, not 200. *)
Lemma C2_counterexample :
  search (catalog_returning (search_result [example_playlist; PyNone]))
    (search_query example_request) "playlist" 5
  = inr (search_result [example_playlist; PyNone]) ∧
  playlist_suggestion PyNone = inl null_item_error ∧
  fst (music_playlist null_item_env example_request empty_world)
  = inr [example_suggestion;
         PyDict [("error",
                  PyStr "An unexpected Spotify error occurred: 'NoneType' object is not subscriptable")]] ∧
  rec_music_playlist_suggestions
    <$> plans_of (snd (generate_plan null_item_env example_request empty_world))
          "someFirebaseUserUID"
  = [[example_suggestion;
      PyDict [("error",
               PyStr "An unexpected Spotify error occurred: 'NoneType' object is not subscriptable")]]] ∧
  response_status HTTP_200_OK
    (fst (generate_plan null_item_env example_request empty_world)) = 500%Z.
Proof. repeat split. Qed.

(** C4, amended. With the model and the catalog client configured and
    both texts generated: when the search returns and every item of its
    result gives its dict, the list the catalog step leaves is the dicts of
    the items, one for each item and in the order of the result; the
    record handed to [add], the last call, holds that list, and is under
    the user when [add] returns. The handler asks the search for at most 5
    items (limit=5), once, and does not truncate what it gets, so the list
    has at most 5 elements when the result has at most 5 items. *)
Theorem C4_generate_plan_catalog_items env model sp request_data w results items l
    workout_plan diet_general_info :
  gemini_model env = Some model →
  spotify env = Some sp →
  search sp (search_query request_data) "playlist" 5 = inr results →
  playlist_items results = inr items →
  suggested items l →
  generated_text model (workout_prompt_of request_data) = inr workout_plan →
  generated_text model (diet_prompt_of request_data) = inr diet_general_info →
  fst (music_playlist env request_data w) = inr l ∧
  length l = length items ∧
  (length items ≤ 5 → length l ≤ 5) ∧
  List.filter is_search (calls (snd (generate_plan env request_data w)))
  = List.filter is_search (calls w)
    ++ [spotify_search (search_query request_data) "playlist" 5] ∧
  ∃ doc,
    last (calls (snd (generate_plan env request_data w)))
    = Some (db_users_plans_add (user_uid request_data) doc) ∧
    rec_music_playlist_suggestions doc = l ∧
    (collection_add env (user_uid request_data) doc = inr () →
     plans_of (snd (generate_plan env request_data w)) (user_uid request_data)
     = plans_of w (user_uid request_data) ++ [doc]).
Proof.
  intros Hm Hsp Hs Hi Hsug Hwp Hdp.
  assert (Hl : ∀ w1, fst (music_playlist env request_data w1) = inr l).
  { intros w1. by rewrite (music_playlist_found _ _ _ Hsp _ _ _ w1 Hs Hi Hsug). }
  destruct (generate_plan_add_called _ _ _ Hm w _ _ _ Hwp Hdp Hl) as [Hcalls Hplans].
  pose proof (suggested_length _ _ Hsug) as Hlen.
  split; [apply Hl|]. split; [done|]. split; [lia|]. split.
  - rewrite Hcalls, calls_after_catalog, Hsp. unfold search_call. simpl.
    by repeat (rewrite ?List.filter_app, ?app_nil_r; simpl).
  - exists (plan_record request_data workout_plan diet_general_info l).
    split; [by rewrite Hcalls, last_snoc|]. by split.
Qed.

Lemma six_suggested :
  suggested (replicate 6 example_playlist) (replicate 6 example_suggestion).
Proof. repeat constructor. Defined.

Lemma C4_witness :
  suggested (replicate 6 example_playlist) (replicate 6 example_suggestion) ∧
  fst (music_playlist six_items_env example_request empty_world)
  = inr (replicate 6 example_suggestion) ∧
  length (replicate 6 example_suggestion) = length (replicate 6 example_playlist).
Proof.
  split; [exact six_suggested|].
  destruct (C4_generate_plan_catalog_items six_items_env
              (model_replying "Day 1: squats")
              (catalog_returning (search_result (replicate 6 example_playlist)))
              example_request empty_world
              (search_result (replicate 6 example_playlist))
              (replicate 6 example_playlist) (replicate 6 example_suggestion)
              "Day 1: squats" "Day 1: squats"
              eq_refl eq_refl eq_refl eq_refl six_suggested eq_refl eq_refl)
    as (Hlist & Hlen & _).
  split; [exact Hlist | exact Hlen].
Defined.

(** C4, as stated, fails: when the search answers with six items, the
    catalog step leaves six playlist suggestions, and the record stored
    holds the six. *)
Lemma C4_counterexample :
  search (catalog_returning (search_result (replicate 6 example_playlist)))
    (search_query example_request) "playlist" 5
  = inr (search_result (replicate 6 example_playlist)) ∧
  fst (music_playlist six_items_env example_request empty_world)
  = inr [example_suggestion; example_suggestion; example_suggestion;
         example_suggestion; example_suggestion; example_suggestion] ∧
  rec_music_playlist_suggestions
    <$> plans_of (snd (generate_plan six_items_env example_request empty_world))
          "someFirebaseUserUID"
  = [[example_suggestion; example_suggestion; example_suggestion;
      example_suggestion; example_suggestion; example_suggestion]] ∧
  length [example_suggestion; example_suggestion; example_suggestion;
          example_suggestion; example_suggestion; example_suggestion] = 6.
Proof. repeat split. Qed.

(** ** register_user *)

(** When [auth.create_user] raises [e], the endpoint raises the 409
    HTTPException if [str(e)] contains "email-already-exists" and the 400
    one otherwise, after the one call to the identity service. *)
Lemma register_user_identity_error env request_data w e :
  create_user env (reg_email request_data) (reg_password request_data) = inl e →
  register_user env request_data w
  = (inl (if py_in "email-already-exists" (exn_str e)
          then conflict else registration_failed e),
     log (auth_create_user (reg_email request_data) (reg_password request_data)) w).
Proof.
  intros H. unfold register_user. unfold_M. rewrite H.
  by destruct (py_in "email-already-exists" (exn_str e)).
Qed.

(** When the account is created and [set] has written the profile, the
    [await] of line 127 raises, its message holds no
    "email-already-exists", and the endpoint raises the 400 HTTPException:
    the account and the profile are there. *)
Lemma register_user_written env request_data w user :
  create_user env (reg_email request_data) (reg_password request_data) = inr user →
  document_set env (uid user) (profile_doc request_data) = inr () →
  register_user env request_data w
  = (inl (registration_failed (await_error "WriteResult")),
     set_user_doc (uid user) (profile_doc request_data)
       (log (db_users_document_set (uid user) (profile_doc request_data))
          (add_auth_user user
             (log (auth_create_user (reg_email request_data)
                     (reg_password request_data)) w)))).
Proof.
  intros Hc Hs. unfold register_user. unfold_M. rewrite Hc.
  fold (profile_doc request_data). by rewrite Hs.
Qed.

(** C5 (the code departs from it). When [auth.create_user] raises the
    exception firebase_admin has for an email that already exists, whose
    message is "The user with the provided email already exists
    (EMAIL_EXISTS).", the marker the handler looks for is not in the
    message, and the endpoint raises the generic 400 HTTPException, not
    the 409 one, after the one call to the identity service. *)
Theorem C5_register_user_duplicate_email env request_data w :
  create_user env (reg_email request_data) (reg_password request_data)
  = inl EmailAlreadyExistsError →
  py_in "email-already-exists" (exn_str EmailAlreadyExistsError) = false ∧
  register_user env request_data w
  = (inl {| status_code := 400;
            detail := "Registration failed: The user with the provided email already exists (EMAIL_EXISTS)." |},
     log (auth_create_user (reg_email request_data) (reg_password request_data)) w) ∧
  response_status HTTP_201_CREATED (fst (register_user env request_data w)) = 400%Z.
Proof.
  intros H. rewrite (register_user_identity_error _ _ _ _ H).
  split; [reflexivity|]. split; reflexivity.
Qed.

Lemma C5_witness :
  create_user (identity_env (inl EmailAlreadyExistsError) (inl unavailable)
                 (inl unavailable))
    (reg_email example_register) (reg_password example_register)
  = inl EmailAlreadyExistsError ∧
  response_status HTTP_201_CREATED
    (fst (register_user (identity_env (inl EmailAlreadyExistsError) (inl unavailable)
                           (inl unavailable))
            example_register empty_world)) = 400%Z.
Proof.
  split; [reflexivity|].
  exact (proj2 (proj2 (C5_register_user_duplicate_email
                         (identity_env (inl EmailAlreadyExistsError) (inl unavailable)
                            (inl unavailable))
                         example_register empty_world eq_refl))).
Defined.

(** C10 (the code departs from it). When [auth.create_user] returns
    [user] and [set] writes the profile document, the write statement of
    line 127 still raises, at its [await], an exception whose message does
    not contain the marker: the endpoint raises the 400 HTTPException and
    the account stays in the identity service; but the user is not left
    without a profile document: the document of the request's name and
    email is stored under the new identifier. *)
Theorem C10_register_user_profile_write env request_data w user :
  create_user env (reg_email request_data) (reg_password request_data) = inr user →
  document_set env (uid user) (profile_doc request_data) = inr () →
  py_in "email-already-exists" (exn_str (await_error "WriteResult")) = false ∧
  fst (register_user env request_data w)
  = inl {| status_code := 400;
           detail := "Registration failed: object WriteResult can't be used in 'await' expression" |} ∧
  response_status HTTP_201_CREATED (fst (register_user env request_data w)) = 400%Z ∧
  auth_users (snd (register_user env request_data w)) = auth_users w ++ [user] ∧
  users (snd (register_user env request_data w)) !! uid user
  = Some {| doc_name := reg_name request_data;
            doc_email := reg_email request_data;
            created_at := SERVER_TIMESTAMP |} ∧
  calls (snd (register_user env request_data w))
  = calls w ++ [auth_create_user (reg_email request_data) (reg_password request_data);
                db_users_document_set (uid user) (profile_doc request_data)].
Proof.
  intros Hc Hs. rewrite (register_user_written _ _ w _ Hc Hs). simpl.
  split; [reflexivity|]. split; [reflexivity|]. split; [reflexivity|].
  split; [reflexivity|]. split; [apply lookup_insert_eq|].
  by rewrite <- app_assoc.
Qed.

Lemma C10_witness :
  fst (register_user (identity_env (inr example_user) (inl unavailable) (inr ()))
         example_register empty_world)
  = inl {| status_code := 400;
           detail := "Registration failed: object WriteResult can't be used in 'await' expression" |} ∧
  auth_users (snd (register_user (identity_env (inr example_user) (inl unavailable)
                                    (inr ()))
                     example_register empty_world)) = [example_user] ∧
  users (snd (register_user (identity_env (inr example_user) (inl unavailable) (inr ()))
                example_register empty_world)) !! "someFirebaseUserUID"
  = Some {| doc_name := "Jane Doe"; doc_email := "user@example.com";
            created_at := SERVER_TIMESTAMP |}.
Proof.
  destruct (C10_register_user_profile_write
              (identity_env (inr example_user) (inl unavailable) (inr ()))
              example_register empty_world example_user eq_refl eq_refl)
    as (_ & Hr & _ & Ha & Hu & _).
  split; [exact Hr|]. split; [exact Ha | exact Hu].
Defined.

(** ** login_user *)

(** C9. [login_user] makes the one lookup by the request's email. When the
    lookup returns a record, the endpoint returns that record's uid and
    email (status 200); when it raises UserNotFoundError, the endpoint
    raises the 404 HTTPException; when it raises anything else, the 400
    one. The password takes no part: the same request with another
    password gives the same result and the same world. *)
Theorem C9_login_user env request_data w :
  (∀ user,
     get_user_by_email env (login_email request_data) = inr user →
     fst (login_user env request_data w) = inr (user_found user) ∧
     response_status HTTP_200_OK (fst (login_user env request_data w)) = 200%Z) ∧
  (∀ e,
     get_user_by_email env (login_email request_data) = inl e →
     exn_cls e = UserNotFoundError_cls →
     fst (login_user env request_data w)
     = inl {| status_code := HTTP_404_NOT_FOUND;
              detail := "User not found with this email." |} ∧
     response_status HTTP_200_OK (fst (login_user env request_data w)) = 404%Z) ∧
  (∀ e,
     get_user_by_email env (login_email request_data) = inl e →
     exn_cls e ≠ UserNotFoundError_cls →
     fst (login_user env request_data w)
     = inl {| status_code := HTTP_400_BAD_REQUEST;
              detail := "Login verification failed: " +:+ exn_str e |} ∧
     response_status HTTP_200_OK (fst (login_user env request_data w)) = 400%Z) ∧
  (∀ password,
     login_user env {| login_email := login_email request_data;
                       login_password := password |} w
     = login_user env request_data w) ∧
  snd (login_user env request_data w)
  = log (auth_get_user_by_email (login_email request_data)) w.
Proof.
  unfold login_user. unfold_M. simpl.
  destruct (get_user_by_email env (login_email request_data)) as [e|user] eqn:H.
  - split; [intros user [=]|].
    split; [intros e' [= <-] ->; done|].
    split; [intros e' [= <-] Hcls; by destruct (exn_cls e)|].
    split; [done|]. by destruct (exn_cls e).
  - split; [intros user' [= <-]; done|].
    split; [intros e [=]|]. split; [intros e [=]|]. done.
Qed.

Lemma C9_witness :
  fst (login_user (identity_env (inl unavailable) (inr example_user) (inl unavailable))
         {| login_email := "user@example.com"; login_password := "securepassword123" |}
         empty_world)
  = inr (user_found example_user) ∧
  fst (login_user (identity_env (inl unavailable) (inl user_not_found) (inl unavailable))
         {| login_email := "user@example.com"; login_password := "securepassword123" |}
         empty_world)
  = inl {| status_code := 404; detail := "User not found with this email." |} ∧
  login_user (identity_env (inl unavailable) (inr example_user) (inl unavailable))
    {| login_email := "user@example.com"; login_password := "another password" |}
    empty_world
  = login_user (identity_env (inl unavailable) (inr example_user) (inl unavailable))
      {| login_email := "user@example.com"; login_password := "securepassword123" |}
      empty_world.
Proof.
  split; [|split].
  - exact (proj1 (proj1 (C9_login_user
                           (identity_env (inl unavailable) (inr example_user)
                              (inl unavailable))
                           {| login_email := "user@example.com";
                              login_password := "securepassword123" |} empty_world)
                    example_user eq_refl)).
  - exact (proj1 (proj1 (proj2 (C9_login_user
                                  (identity_env (inl unavailable) (inl user_not_found)
                                     (inl unavailable))
                                  {| login_email := "user@example.com";
                                     login_password := "securepassword123" |}
                                  empty_world))
                    user_not_found eq_refl eq_refl)).
  - exact (proj1 (proj2 (proj2 (proj2 (C9_login_user
                                  (identity_env (inl unavailable) (inr example_user)
                                     (inl unavailable))
                                  {| login_email := "user@example.com";
                                     login_password := "securepassword123" |}
                                  empty_world))))
             "another password").
Defined.

(** ** analyze_nutrition *)

Lemma env_missing_spec (v : option string) :
  env_missing v = true ↔ v = None ∨ v = Some EmptyString.
Proof.
  destruct v as [s|]; simpl; [|by split; [left|]].
  rewrite String.eqb_eq. split; [intros ->; by right | intros [|[= ->]]; done].
Qed.

(** C6. When one of the two credentials is unset or empty,
    [analyze_nutrition] raises the 503 HTTPException and the world is as it
    was (no call is made), whatever the ingredients. When both are set, the
    post returns a response, [raise_for_status] passes and [json] gives
    [body]: the endpoint returns [body] itself; the one call made is the
    post, with the request's ingredient strings in their order; and the
    stores are as they were. *)
Theorem C6_analyze_nutrition env ingredients w :
  (env_missing (EDAMAM_APP_ID env) || env_missing (EDAMAM_APP_KEY env) = true →
   analyze_nutrition env ingredients w = (inl nutrition_unavailable, w) ∧
   response_status HTTP_200_OK (fst (analyze_nutrition env ingredients w)) = 503%Z) ∧
  (∀ app_id app_key response body,
     EDAMAM_APP_ID env = Some app_id → app_id ≠ EmptyString →
     EDAMAM_APP_KEY env = Some app_key → app_key ≠ EmptyString →
     post env edamam_nutrition_url (ingredient <$> ingredients) app_id app_key
     = inr response →
     raise_for_status response = inr () →
     json response = inr body →
     let w' := snd (analyze_nutrition env ingredients w) in
     fst (analyze_nutrition env ingredients w) = inr body ∧
     response_status HTTP_200_OK (fst (analyze_nutrition env ingredients w)) = 200%Z ∧
     calls w' = calls w ++ [requests_post edamam_nutrition_url
                              (ingredient <$> ingredients) app_id app_key
                              "application/json"] ∧
     users w' = users w ∧ plans w' = plans w ∧ auth_users w' = auth_users w).
Proof.
  unfold analyze_nutrition. split.
  - intros ->. done.
  - intros app_id app_key response body Hid Hid' Hkey Hkey' Hpost Hstatus Hjson.
    rewrite Hid, Hkey. simpl.
    apply String.eqb_neq in Hid', Hkey'. rewrite Hid', Hkey'. simpl.
    unfold_M. rewrite Hpost, Hstatus, Hjson. done.
Qed.

Lemma C6_witness :
  analyze_nutrition (nutrition_env None (Some "key") (inl unavailable))
    example_ingredients empty_world
  = (inl nutrition_unavailable, empty_world) ∧
  fst (analyze_nutrition
         (nutrition_env (Some "id") (Some "key")
            (inr {| raise_for_status := inr (); json := inr example_nutrition |}))
         example_ingredients empty_world)
  = inr example_nutrition ∧
  calls (snd (analyze_nutrition
                (nutrition_env (Some "id") (Some "key")
                   (inr {| raise_for_status := inr (); json := inr example_nutrition |}))
                example_ingredients empty_world))
  = [requests_post edamam_nutrition_url ["1 cup cooked rice"; "2 eggs"] "id" "key"
       "application/json"].
Proof.
  split.
  - exact (proj1 (proj1 (C6_analyze_nutrition
                           (nutrition_env None (Some "key") (inl unavailable))
                           example_ingredients empty_world) eq_refl)).
  - destruct (proj2 (C6_analyze_nutrition
                       (nutrition_env (Some "id") (Some "key")
                          (inr {| raise_for_status := inr ();
                                  json := inr example_nutrition |}))
                       example_ingredients empty_world)
                "id" "key" {| raise_for_status := inr (); json := inr example_nutrition |}
                example_nutrition eq_refl ltac:(discriminate) eq_refl ltac:(discriminate)
                eq_refl eq_refl eq_refl) as (Hb & _ & Hc & _).
    split; [exact Hb | exact Hc].
Defined.

(** The call, the status check or the decoding raising [e] ends the
    request with 502 when [e] is a RequestException, with 500 otherwise. *)
Lemma analyze_nutrition_upstream_failure env ingredients w app_id app_key e :
  EDAMAM_APP_ID env = Some app_id → app_id ≠ EmptyString →
  EDAMAM_APP_KEY env = Some app_key → app_key ≠ EmptyString →
  (post env edamam_nutrition_url (ingredient <$> ingredients) app_id app_key = inl e ∨
   ∃ response,
     post env edamam_nutrition_url (ingredient <$> ingredients) app_id app_key
     = inr response ∧
     (raise_for_status response = inl e ∨
      raise_for_status response = inr () ∧ json response = inl e)) →
  response_status HTTP_200_OK (fst (analyze_nutrition env ingredients w))
  = match exn_cls e with
    | RequestException_cls => 502%Z
    | _ => 500%Z
    end.
Proof.
  intros Hid Hid' Hkey Hkey' H. unfold analyze_nutrition.
  rewrite Hid, Hkey. simpl.
  apply String.eqb_neq in Hid', Hkey'. rewrite Hid', Hkey'. simpl. unfold_M.
  destruct H as [-> | (response & -> & [-> | [-> ->]])]; by destruct (exn_cls e).
Qed.

(** ** Concrete runs *)

Example search_query_example :
  search_query example_request = "Electronic Dance Music moderate workout music".
Proof. reflexivity. Qed.

(** The model answers, the search finds one playlist, [add] stores the
    record: the request ends with 500, and the record is stored. *)
Example generate_plan_example :
  generate_plan
    (plan_env (Some (model_replying "Day 1: squats"))
       (Some (catalog_returning (search_result [example_playlist]))) (inr ()))
    example_request empty_world
  = (inl {| status_code := 500;
            detail := "An internal error occurred while generating the plan: object tuple can't be used in 'await' expression" |},
     {| auth_users := [];
        users := ∅;
        plans := {[ "someFirebaseUserUID" :=
                      [plan_record example_request "Day 1: squats" "Day 1: squats"
                         [example_suggestion]] ]};
        calls := [gemini_generate_content (workout_prompt 70.5 65.0 8);
                  gemini_generate_content (diet_initial_prompt 70.5 65.0 8);
                  spotify_search "Electronic Dance Music moderate workout music"
                    "playlist" 5;
                  db_users_plans_add "someFirebaseUserUID"
                    (plan_record example_request "Day 1: squats" "Day 1: squats"
                       [example_suggestion])] |}).
Proof. reflexivity. Qed.

(** The dict of lines 242-247, which no request gets to return. *)
Example plan_response_example :
  plan_response "Day 1: squats" "Breakfast: oats" [spotify_not_initialized]
  = PyDict [("message", PyStr "Plan generated and saved successfully");
            ("workout_plan", PyStr "Day 1: squats");
            ("diet_plan_summary", PyStr "Breakfast: oats");
            ("music_playlist_suggestions",
             PyList [PyDict [("error",
                              PyStr "Spotify API not initialized. Check server logs for credential errors.")]])].
Proof. reflexivity. Qed.

(** A SpotifyException from the search leaves the marker of the first
    [except] clause, alone. *)
Example music_playlist_rate_limited :
  fst (music_playlist
         (plan_env None
            (Some (catalog_raising
                     (Exn SpotifyException_cls "http status: 429, code: -1 - rate limited")))
            (inr ()))
         example_request empty_world)
  = inr [PyDict [("error",
                  PyStr "Spotify API error: http status: 429, code: -1 - rate limited. Check credentials or network.")]].
Proof. reflexivity. Qed.

(** A result without the 'playlists' key gives no suggestion and no marker. *)
Example music_playlist_no_playlists :
  fst (music_playlist
         (plan_env None (Some (catalog_returning (PyDict []))) (inr ()))
         example_request empty_world)
  = inr [].
Proof. reflexivity. Qed.

(** The account is created, [set] stores the profile: the request ends
    with 400, and both are there. *)
Example register_user_example :
  register_user (identity_env (inr example_user) (inl unavailable) (inr ()))
    example_register empty_world
  = (inl {| status_code := 400;
            detail := "Registration failed: object WriteResult can't be used in 'await' expression" |},
     {| auth_users := [example_user];
        users := {[ "someFirebaseUserUID" := profile_doc example_register ]};
        plans := ∅;
        calls := [auth_create_user "user@example.com" "securepassword123";
                  db_users_document_set "someFirebaseUserUID"
                    (profile_doc example_register)] |}).
Proof. reflexivity. Qed.

(** * Further properties of the handlers *)

(** ** register_user, every outcome *)

(** X1. When [auth.create_user] returns [user] and [set] writes the
    profile, the profile read back under [user]'s uid is the request's
    name and email (replacing whatever was stored there); every other
    profile and all the plans are as they were; the account is added; and
    the calls made are the creation and the write. *)
Theorem X1_register_user_stores_profile env request_data w user :
  create_user env (reg_email request_data) (reg_password request_data) = inr user →
  document_set env (uid user) (profile_doc request_data) = inr () →
  users (snd (register_user env request_data w)) !! uid user
  = Some {| doc_name := reg_name request_data;
            doc_email := reg_email request_data;
            created_at := SERVER_TIMESTAMP |} ∧
  (∀ u, u ≠ uid user →
        users (snd (register_user env request_data w)) !! u = users w !! u) ∧
  auth_users (snd (register_user env request_data w)) = auth_users w ++ [user] ∧
  plans (snd (register_user env request_data w)) = plans w ∧
  calls (snd (register_user env request_data w))
  = calls w ++ [auth_create_user (reg_email request_data) (reg_password request_data);
                db_users_document_set (uid user)
                  {| doc_name := reg_name request_data;
                     doc_email := reg_email request_data;
                     created_at := SERVER_TIMESTAMP |}].
Proof.
  intros Hc Hs. rewrite (register_user_written _ _ w _ Hc Hs). simpl.
  split; [apply lookup_insert_eq|]. split.
  { intros u Hu. by apply lookup_insert_ne. }
  split; [done|]. split; [done|]. by rewrite <- app_assoc.
Qed.

Lemma X1_witness :
  users (snd (register_user (identity_env (inr example_user) (inl unavailable) (inr ()))
                example_register empty_world)) !! "someFirebaseUserUID"
  = Some {| doc_name := "Jane Doe"; doc_email := "user@example.com";
            created_at := SERVER_TIMESTAMP |} ∧
  auth_users (snd (register_user (identity_env (inr example_user) (inl unavailable)
                                    (inr ()))
                     example_register empty_world)) = [example_user].
Proof.
  destruct (X1_register_user_stores_profile
              (identity_env (inr example_user) (inl unavailable) (inr ()))
              example_register empty_world example_user eq_refl eq_refl)
    as (Hdoc & _ & Hacc & _).
  split; [exact Hdoc | exact Hacc].
Defined.

(** X2. The 409 can come from the profile write: when [auth.create_user]
    returns [user] and the write raises an exception whose message
    contains "email-already-exists", the endpoint raises the 409
    HTTPException although the account has just been created; the account
    stays. *)
Theorem X2_register_user_conflict_after_creation env request_data w user e :
  create_user env (reg_email request_data) (reg_password request_data) = inr user →
  document_set env (uid user) (profile_doc request_data) = inl e →
  has_marker (exn_str e) →
  fst (register_user env request_data w) = inl conflict ∧
  response_status HTTP_201_CREATED (fst (register_user env request_data w)) = 409%Z ∧
  auth_users (snd (register_user env request_data w)) = auth_users w ++ [user].
Proof.
  intros Hc Hs Hm. unfold register_user. unfold_M. rewrite Hc.
  fold (profile_doc request_data). rewrite Hs.
  unfold has_marker, already_exists_marker in Hm. rewrite <- py_in_spec in Hm.
  by rewrite Hm.
Qed.

Lemma has_marker_email_exists : has_marker (exn_str email_exists).
Proof. exists "auth/", ": the email address is already in use". reflexivity. Defined.

Lemma X2_witness :
  fst (register_user (identity_env (inr example_user) (inl unavailable)
                        (inl email_exists))
         example_register empty_world) = inl conflict ∧
  auth_users (snd (register_user (identity_env (inr example_user) (inl unavailable)
                                    (inl email_exists))
                     example_register empty_world)) = [example_user].
Proof.
  destruct (X2_register_user_conflict_after_creation
              (identity_env (inr example_user) (inl unavailable) (inl email_exists))
              example_register empty_world example_user email_exists
              eq_refl eq_refl has_marker_email_exists)
    as (Hr & _ & Ha).
  split; [exact Hr | exact Ha].
Defined.

(** X3. Whatever the services answer, [register_user] never returns its
    201 body: it ends with the 409 or the 400 HTTPException. It makes the
    creation call and, only when that returned, the profile write, and
    nothing else; it adds at most one account and never touches the plans.
    When the creation raises, no account is added and no profile is
    touched; when the creation returns [user] and [set] returns, the
    profile of the request is stored under [user]'s uid and the answer is
    400. *)
Theorem X3_register_user_outcomes env request_data w :
  (∃ h, fst (register_user env request_data w) = inl h ∧
        (status_code h = 409%Z ∨ status_code h = 400%Z)) ∧
  plans (snd (register_user env request_data w)) = plans w ∧
  (∃ created, auth_users (snd (register_user env request_data w))
              = auth_users w ++ created ∧ length created ≤ 1) ∧
  (∃ written, calls (snd (register_user env request_data w))
              = calls w ++ auth_create_user (reg_email request_data)
                             (reg_password request_data) :: written ∧
              (written = [] ∨
               ∃ user, create_user env (reg_email request_data)
                         (reg_password request_data) = inr user ∧
                       written = [db_users_document_set (uid user)
                                    (profile_doc request_data)])) ∧
  (∀ e, create_user env (reg_email request_data) (reg_password request_data) = inl e →
        auth_users (snd (register_user env request_data w)) = auth_users w ∧
        users (snd (register_user env request_data w)) = users w) ∧
  (∀ user,
     create_user env (reg_email request_data) (reg_password request_data) = inr user →
     document_set env (uid user) (profile_doc request_data) = inr () →
     response_status HTTP_201_CREATED (fst (register_user env request_data w)) = 400%Z ∧
     users (snd (register_user env request_data w))
     = <[uid user := {| doc_name := reg_name request_data;
                        doc_email := reg_email request_data;
                        created_at := SERVER_TIMESTAMP |}]> (users w)).
Proof.
  unfold register_user. unfold_M.
  destruct (create_user env _ _) as [e|user] eqn:Hc.
  - assert (Hcreated : ∃ created, auth_users w = auth_users w ++ created ∧
                                  length created ≤ 1)
      by (exists []; rewrite app_nil_r; split; [done|simpl; lia]).
    destruct (py_in "email-already-exists" (exn_str e)); simpl;
      (split; [eexists; split; [reflexivity|auto]|]); (split; [done|]);
      (split; [exact Hcreated|]); (split; [exists []; auto|]); (split; [done|]);
      by intros user [=].
  - fold (profile_doc request_data).
    assert (Hcreated : ∃ created, auth_users w ++ [user] = auth_users w ++ created ∧
                                  length created ≤ 1)
      by (exists [user]; split; [done|simpl; lia]).
    assert (Hcalls : ∃ written,
               (calls w ++ [auth_create_user (reg_email request_data)
                              (reg_password request_data)])
               ++ [db_users_document_set (uid user) (profile_doc request_data)]
               = calls w ++ auth_create_user (reg_email request_data)
                              (reg_password request_data) :: written ∧
               (written = [] ∨
                ∃ user', (inr user : pyres UserRecord) = inr user' ∧
                         written = [db_users_document_set (uid user')
                                      (profile_doc request_data)])).
    { eexists. split; [by rewrite <- app_assoc|]. right. by exists user. }
    destruct (document_set env (uid user) (profile_doc request_data)) as [e|[]] eqn:Hs.
    + destruct (py_in "email-already-exists" (exn_str e)); simpl;
        (split; [eexists; split; [reflexivity|auto]|]); (split; [done|]);
        (split; [exact Hcreated|]); (split; [exact Hcalls|]);
        (split; [by intros e' [=]|]); intros user' [= <-]; by rewrite Hs.
    + simpl. split; [eexists; split; [reflexivity|auto]|]. split; [done|].
      split; [exact Hcreated|]. split; [exact Hcalls|].
      split; [by intros e' [=]|]. by intros user' [= <-] _.
Qed.

(** X20. When [auth.create_user] raises [e], the endpoint raises the 409
    HTTPException exactly when [str(e)] contains "email-already-exists",
    and the 400 one, carrying [str(e)], otherwise; in both cases after the
    one call to the identity service, and with no account, profile or plan
    added. *)
Theorem X20_register_user_identity_error env request_data w e :
  create_user env (reg_email request_data) (reg_password request_data) = inl e →
  (has_marker (exn_str e) →
   register_user env request_data w
   = (inl conflict,
      log (auth_create_user (reg_email request_data) (reg_password request_data)) w) ∧
   response_status HTTP_201_CREATED (fst (register_user env request_data w)) = 409%Z) ∧
  (¬ has_marker (exn_str e) →
   register_user env request_data w
   = (inl (registration_failed e),
      log (auth_create_user (reg_email request_data) (reg_password request_data)) w) ∧
   response_status HTTP_201_CREATED (fst (register_user env request_data w)) = 400%Z).
Proof.
  intros H. rewrite (register_user_identity_error _ _ _ _ H).
  unfold has_marker, already_exists_marker. rewrite <- py_in_spec.
  destruct (py_in "email-already-exists" (exn_str e)); split; intros Hin; done.
Qed.

Lemma X20_witness :
  create_user (identity_env (inl email_exists) (inl unavailable) (inl unavailable))
    (reg_email example_register) (reg_password example_register) = inl email_exists ∧
  has_marker (exn_str email_exists) ∧
  response_status HTTP_201_CREATED
    (fst (register_user (identity_env (inl email_exists) (inl unavailable) (inl unavailable))
            example_register empty_world)) = 409%Z.
Proof.
  split; [reflexivity|]. split; [exact has_marker_email_exists|].
  exact (proj2 (proj1 (X20_register_user_identity_error
                         (identity_env (inl email_exists) (inl unavailable) (inl unavailable))
                         example_register empty_world email_exists eq_refl)
                  has_marker_email_exists)).
Defined.

(** ** analyze_nutrition, every outcome *)

(** X4. With both credentials set: when the post, the check of its status
    or the decoding of its body raises [e], the endpoint raises the 502
    HTTPException if [e] is a RequestException and the 500 one otherwise,
    each carrying [str(e)]; the post was the only call, and no store is
    touched. *)
Theorem X4_analyze_nutrition_upstream_failure env ingredients w e :
  env_missing (EDAMAM_APP_ID env) = false →
  env_missing (EDAMAM_APP_KEY env) = false →
  nutrition_raises env ingredients e →
  analyze_nutrition env ingredients w
  = (inl (nutrition_failed e), log (nutrition_call env ingredients) w) ∧
  response_status HTTP_200_OK (fst (analyze_nutrition env ingredients w))
  = match exn_cls e with
    | RequestException_cls => 502%Z
    | _ => 500%Z
    end.
Proof.
  intros Hid Hkey H. unfold analyze_nutrition, nutrition_failed, nutrition_call.
  rewrite Hid, Hkey. simpl. unfold_M.
  destruct H as [-> | (response & -> & [-> | [-> ->]])]; by destruct (exn_cls e).
Qed.

Lemma X4_witness :
  nutrition_raises (nutrition_env (Some "id") (Some "key") (inr bad_request_response))
    example_ingredients
    (Exn RequestException_cls
       "400 Client Error: Bad Request for url: https://api.edamam.com/api/nutrition-details") ∧
  response_status HTTP_200_OK
    (fst (analyze_nutrition
            (nutrition_env (Some "id") (Some "key") (inr bad_request_response))
            example_ingredients empty_world)) = 502%Z.
Proof.
  assert (H : nutrition_raises
                (nutrition_env (Some "id") (Some "key") (inr bad_request_response))
                example_ingredients
                (Exn RequestException_cls
                   "400 Client Error: Bad Request for url: https://api.edamam.com/api/nutrition-details")).
  { right. exists bad_request_response. split; [reflexivity|]. left. reflexivity. }
  split; [exact H|].
  exact (proj2 (X4_analyze_nutrition_upstream_failure
                  (nutrition_env (Some "id") (Some "key") (inr bad_request_response))
                  example_ingredients empty_world _ eq_refl eq_refl H)).
Defined.

(** X5. Whatever the credentials and the service's answer,
    [analyze_nutrition] ends with 200, 503, 502 or 500 and touches no
    store. Without both credentials it makes no call; with them it makes
    exactly one, the post of the request's ingredient strings in their
    order (also when there are none). And a body it returns is what
    [json()] gave on a response whose status check passed. *)
Theorem X5_analyze_nutrition_outcomes env ingredients w :
  (response_status HTTP_200_OK (fst (analyze_nutrition env ingredients w)) = 200%Z ∨
   response_status HTTP_200_OK (fst (analyze_nutrition env ingredients w)) = 503%Z ∨
   response_status HTTP_200_OK (fst (analyze_nutrition env ingredients w)) = 502%Z ∨
   response_status HTTP_200_OK (fst (analyze_nutrition env ingredients w)) = 500%Z) ∧
  users (snd (analyze_nutrition env ingredients w)) = users w ∧
  plans (snd (analyze_nutrition env ingredients w)) = plans w ∧
  auth_users (snd (analyze_nutrition env ingredients w)) = auth_users w ∧
  calls (snd (analyze_nutrition env ingredients w))
  = (if env_missing (EDAMAM_APP_ID env) || env_missing (EDAMAM_APP_KEY env)
     then calls w
     else calls w ++ [nutrition_call env ingredients]) ∧
  (∀ body, fst (analyze_nutrition env ingredients w) = inr body →
           ∃ response,
             post env edamam_nutrition_url (ingredient <$> ingredients)
               (default EmptyString (EDAMAM_APP_ID env))
               (default EmptyString (EDAMAM_APP_KEY env)) = inr response ∧
             raise_for_status response = inr () ∧
             json response = inr body).
Proof.
  unfold analyze_nutrition, nutrition_call.
  destruct (env_missing (EDAMAM_APP_ID env) || env_missing (EDAMAM_APP_KEY env)).
  { simpl. repeat (split; [solve [auto 7]|]). intros body [=]. }
  unfold_M.
  destruct (post env _ _ _ _) as [e|response] eqn:Hpost.
  { destruct (exn_cls e); simpl; repeat (split; [solve [auto 7]|]); intros body [=]. }
  destruct (raise_for_status response) as [e|[]] eqn:Hstatus.
  { destruct (exn_cls e); simpl; repeat (split; [solve [auto 7]|]); intros body [=]. }
  destruct (json response) as [e|body] eqn:Hjson.
  { destruct (exn_cls e); simpl; repeat (split; [solve [auto 7]|]); intros body [=]. }
  simpl. repeat (split; [solve [auto 7]|]). intros body' [= <-]. by exists response.
Qed.

(** ** The catalog step, every outcome *)

(** X6. Whatever the catalog client answers (any value, any exception),
    the catalog step of [generate_plan] does not raise: it leaves a list.
    It touches no store, and it calls the search at most once: once, for
    playlists, with limit 5 and the query built from genre and intensity,
    when the client is configured, and not at all otherwise. *)
Theorem X6_music_playlist_never_raises env request_data w :
  (∃ l, fst (music_playlist env request_data w) = inr l) ∧
  users (snd (music_playlist env request_data w)) = users w ∧
  plans (snd (music_playlist env request_data w)) = plans w ∧
  auth_users (snd (music_playlist env request_data w)) = auth_users w ∧
  calls (snd (music_playlist env request_data w))
  = calls w ++ match spotify env with
               | Some _ =>
                   [spotify_search
                      (music_genre request_data +:+ " " +:+
                       format_optional (workout_intensity request_data) +:+
                       " workout music") "playlist" 5]
               | None => []
               end.
Proof.
  destruct (music_playlist_total env request_data w) as (l & _ & ->).
  split; [by exists l|]. simpl.
  destruct (spotify env); simpl; [done|]. by rewrite app_nil_r.
Qed.

(** X7. The list the catalog step leaves is made of playlist dicts, none
    of them an error marker, followed by at most one error marker; without
    a catalog client it is the "not initialized" marker alone. *)
Theorem X7_playlist_suggestions_shape env request_data w l :
  fst (music_playlist env request_data w) = inr l →
  ∃ suggestions errors,
    l = suggestions ++ errors ∧
    Forall (λ s, is_error_marker s = false) suggestions ∧
    (errors = [] ∨ ∃ m, errors = [m] ∧ is_error_marker m = true) ∧
    (spotify env = None → l = [spotify_not_initialized]).
Proof.
  intros H. destruct (spotify env) as [sp|] eqn:Hsp.
  - destruct (catalog_outcome sp request_data)
      as [(results & items & l' & Hs & Hi & Hl) | (se & l' & Hr)].
    + rewrite (music_playlist_found _ _ _ Hsp _ _ _ w Hs Hi Hl) in H.
      injection H as <-. exists l', []. rewrite app_nil_r.
      split; [done|]. split; [exact (suggested_no_marker _ _ Hl)|]. split; [by left|done].
    + rewrite (music_playlist_raises _ _ _ Hsp _ _ w Hr) in H.
      injection H as <-. exists l', [spotify_error se].
      split; [done|]. split; [exact (catalog_raises_no_marker _ _ _ _ Hr)|].
      split; [|done]. right. exists (spotify_error se).
      split; [done|apply spotify_error_is_marker].
  - rewrite (music_playlist_unconfigured _ _ _ Hsp) in H. injection H as <-.
    exists [], [spotify_not_initialized]. split; [done|]. split; [constructor|].
    split; [|done]. right. by exists spotify_not_initialized.
Qed.

Lemma X7_witness :
  ∃ suggestions errors,
    [example_suggestion; spotify_error null_item_error] = suggestions ++ errors ∧
    Forall (λ s, is_error_marker s = false) suggestions ∧
    (errors = [] ∨ ∃ m, errors = [m] ∧ is_error_marker m = true).
Proof.
  destruct (X7_playlist_suggestions_shape null_item_env example_request empty_world
              [example_suggestion; spotify_error null_item_error] eq_refl)
    as (suggestions & errors & H1 & H2 & H3 & _).
  exists suggestions, errors. split; [exact H1|]. split; [exact H2 | exact H3].
Defined.

Lemma pyres_bind_inr {A B} (m : pyres A) (f : A → pyres B) (b : B) :
  m ≫= f = inr b → ∃ a, m = inr a ∧ f a = inr b.
Proof.
  unfold mbind, pyres_bind. destruct m as [e|a]; [discriminate|].
  intros H. exists a. split; [reflexivity | exact H].
Qed.

Lemma py_getitem_inr (v : pyval) (k : string) (x : pyval) :
  py_getitem v k = inr x → ∃ d, v = PyDict d ∧ dict_lookup d k = Some x.
Proof.
  destruct v as [| | | | | |d]; try discriminate. simpl.
  destruct (dict_lookup d k) as [y|] eqn:Hk; [|discriminate].
  intros [= <-]. exists d. split; [reflexivity | exact Hk].
Qed.

(** X8. A playlist gives a dict only when it is itself a dict with the
    keys 'name', 'external_urls' (holding 'spotify'), 'images', 'owner'
    (holding 'display_name') and 'tracks' (holding 'total'). The dict then
    has the six entries name, description, spotify_url, image_url, owner,
    tracks_count, in this order: the description is the playlist's, or
    "No description available" when the key is absent; the image is the
    'url' of the first of the images, or [None] when 'images' is empty or
    otherwise false. *)
Theorem X8_playlist_suggestion_fields playlist s :
  playlist_suggestion playlist = inr s →
  ∃ d name external_urls spotify_url images image_url owner display_name tracks total,
    playlist = PyDict d ∧
    dict_lookup d "name" = Some name ∧
    dict_lookup d "external_urls" = Some external_urls ∧
    py_getitem external_urls "spotify" = inr spotify_url ∧
    dict_lookup d "images" = Some images ∧
    (if py_truthy images
     then (image ← py_getitem_0 images; py_getitem image "url") = inr image_url
     else image_url = PyNone) ∧
    dict_lookup d "owner" = Some owner ∧
    py_getitem owner "display_name" = inr display_name ∧
    dict_lookup d "tracks" = Some tracks ∧
    py_getitem tracks "total" = inr total ∧
    s = PyDict [("name", name);
                ("description",
                 default (PyStr "No description available") (dict_lookup d "description"));
                ("spotify_url", spotify_url);
                ("image_url", image_url);
                ("owner", display_name);
                ("tracks_count", total)].
Proof.
  intros H. unfold playlist_suggestion in H.
  apply pyres_bind_inr in H as (name & Hname & H).
  apply py_getitem_inr in Hname as (d & -> & Hname).
  apply pyres_bind_inr in H as (description & Hdesc & H).
  apply pyres_bind_inr in H as (external_urls & Hext & H).
  apply py_getitem_inr in Hext as (d' & [= <-] & Hext).
  apply pyres_bind_inr in H as (spotify_url & Hurl & H).
  apply pyres_bind_inr in H as (images & Himages & H).
  apply pyres_bind_inr in H as (image_url & Himage & H).
  apply pyres_bind_inr in H as (owner & Howner & H).
  apply pyres_bind_inr in H as (display_name & Hdisplay & H).
  apply pyres_bind_inr in H as (tracks & Htracks & H).
  apply pyres_bind_inr in H as (total & Htotal & H).
  rewrite Himages in Himage.
  apply py_getitem_inr in Himages as (d' & [= <-] & Himages).
  apply py_getitem_inr in Howner as (d' & [= <-] & Howner).
  apply py_getitem_inr in Htracks as (d' & [= <-] & Htracks).
  injection Hdesc as <-. injection H as <-.
  exists d, name, external_urls, spotify_url, images, image_url, owner,
    display_name, tracks, total.
  repeat (split; [done|]). split; [|done].
  destruct (py_truthy images); [exact Himage | by injection Himage].
Qed.


Lemma X8_witness :
  ∃ d name total,
    example_playlist = PyDict d ∧
    dict_lookup d "name" = Some name ∧
    (tracks ← py_getitem example_playlist "tracks"; py_getitem tracks "total")
    = inr total.
Proof.
  destruct (X8_playlist_suggestion_fields example_playlist example_suggestion eq_refl)
    as (d & name & _ & _ & _ & _ & _ & _ & tracks & total
        & Hp & Hn & _ & _ & _ & _ & _ & _ & Ht & Htot & _).
  exists d, name, total. split; [exact Hp|]. split; [exact Hn|].
  rewrite Hp. simpl. rewrite Ht. exact Htot.
Defined.

(** X9. A search result that is a dict without the key 'playlists', or
    whose 'playlists' is a dict without the key 'items', gives an empty
    list of playlist suggestions, with no error marker; one whose
    'playlists' is [None] gives the error marker of the AttributeError
    that [.get] raises on it. *)
Theorem X9_search_result_without_items env sp request_data w d :
  spotify env = Some sp →
  search sp (search_query request_data) "playlist" 5 = inr (PyDict d) →
  (dict_lookup d "playlists" = None →
   fst (music_playlist env request_data w) = inr []) ∧
  (∀ d', dict_lookup d "playlists" = Some (PyDict d') →
         dict_lookup d' "items" = None →
         fst (music_playlist env request_data w) = inr []) ∧
  (dict_lookup d "playlists" = Some PyNone →
   fst (music_playlist env request_data w)
   = inr [PyDict [("error",
                   PyStr "An unexpected Spotify error occurred: 'NoneType' object has no attribute 'get'")]]).
Proof.
  intros Hsp Hs. unfold music_playlist, spotify_try, playlist_items.
  rewrite Hsp, Hs. simpl. split; [|split].
  - by intros ->.
  - intros d' -> Hd'. simpl. by rewrite Hd'.
  - by intros ->.
Qed.

Lemma X9_witness :
  fst (music_playlist
         (plan_env None (Some (catalog_returning (PyDict [("playlists", PyNone)])))
            (inr ()))
         example_request empty_world)
  = inr [PyDict [("error",
                  PyStr "An unexpected Spotify error occurred: 'NoneType' object has no attribute 'get'")]] ∧
  fst (music_playlist
         (plan_env None (Some (catalog_returning (PyDict [("playlists", PyDict [])])))
            (inr ()))
         example_request empty_world)
  = inr [].
Proof.
  split.
  - exact (proj2 (proj2 (X9_search_result_without_items
                           (plan_env None
                              (Some (catalog_returning (PyDict [("playlists", PyNone)])))
                              (inr ()))
                           (catalog_returning (PyDict [("playlists", PyNone)]))
                           example_request empty_world [("playlists", PyNone)]
                           eq_refl eq_refl)) eq_refl).
  - exact (proj1 (proj2 (X9_search_result_without_items
                           (plan_env None
                              (Some (catalog_returning (PyDict [("playlists", PyDict [])])))
                              (inr ()))
                           (catalog_returning (PyDict [("playlists", PyDict [])]))
                           example_request empty_world [("playlists", PyDict [])]
                           eq_refl eq_refl)) [] eq_refl eq_refl).
Defined.

(** ** generate_plan, every outcome *)

(** X10. The calls of one request to [generate_plan] are a prefix of: the
    generation of the workout text, the generation of the diet text, the
    catalog search (when a client is configured), the write of the record.
    So the catalog is searched only after both generations were called,
    the write is the last call and is made at most once; and a request
    that returns has made them all. *)
Theorem X10_generate_plan_call_order env request_data w :
  ∃ doc new,
    calls (snd (generate_plan env request_data w)) = calls w ++ new ∧
    new `prefix_of` plan_calls env request_data doc ∧
    (∀ body, fst (generate_plan env request_data w) = inr body →
             new = plan_calls env request_data doc).
Proof.
  destruct (gemini_model env) as [model|] eqn:Hm.
  2:{ exists (plan_record request_data EmptyString EmptyString []), [].
      unfold generate_plan. rewrite Hm. simpl. rewrite app_nil_r.
      split; [done|]. split; [apply prefix_nil | intros body [=]]. }
  rewrite (generate_plan_configured _ _ _ Hm).
  pose proof (generate_plan_try_run env model request_data w) as Hrun.
  destruct (generated_text model (workout_prompt_of request_data)) as [e|wp].
  { rewrite Hrun. simpl.
    exists (plan_record request_data EmptyString EmptyString []),
      [gemini_generate_content (workout_prompt_of request_data)].
    split; [done|]. split; [by eexists | intros body [=]]. }
  destruct (generated_text model (diet_prompt_of request_data)) as [e|dp].
  { rewrite Hrun. simpl.
    exists (plan_record request_data EmptyString EmptyString []),
      [gemini_generate_content (workout_prompt_of request_data);
       gemini_generate_content (diet_prompt_of request_data)].
    split; [by rewrite <- app_assoc|]. split; [by eexists | intros body [=]]. }
  destruct Hrun as (l & _ & Hrun). cbn zeta in Hrun.
  exists (plan_record request_data wp dp l), (plan_calls env request_data
                                               (plan_record request_data wp dp l)).
  assert (Hcalls : calls (log (db_users_plans_add (user_uid request_data)
                                 (plan_record request_data wp dp l))
                            (after_catalog env request_data
                               (after_texts request_data w)))
                   = calls w ++ plan_calls env request_data
                                  (plan_record request_data wp dp l)).
  { simpl. rewrite calls_after_catalog. unfold plan_calls. simpl.
    by rewrite <- !app_assoc. }
  destruct (collection_add env _ _) as [e|u]; rewrite Hrun; simpl snd;
    (split; [exact Hcalls|]); split; done.
Qed.

(** X11. A request to [generate_plan] puts a record under its user only
    in this way: the model is configured, both texts were generated and
    the catalog step has left its list. The record holds the request's
    weights, duration, genre and intensity, the two texts as generated and
    the list of the catalog step. *)
Theorem X11_generate_plan_record env request_data w doc :
  plans_of (snd (generate_plan env request_data w)) (user_uid request_data)
  = plans_of w (user_uid request_data) ++ [doc] →
  ∃ model,
    gemini_model env = Some model ∧
    generated_text model (workout_prompt_of request_data) = inr (rec_workout_plan doc) ∧
    generated_text model (diet_prompt_of request_data)
    = inr (rec_diet_general_info doc) ∧
    fst (music_playlist env request_data w)
    = inr (rec_music_playlist_suggestions doc) ∧
    rec_current_weight doc = current_weight request_data ∧
    rec_target_weight doc = target_weight request_data ∧
    rec_duration_weeks doc = duration_weeks request_data ∧
    rec_music_genre doc = music_genre request_data ∧
    rec_workout_intensity doc = workout_intensity request_data ∧
    generated_at doc = SERVER_TIMESTAMP.
Proof.
  intros H.
  destruct (generate_plan_effect env request_data w)
    as (_ & _ & [Hsame | (model & wp & dp & l & Hm & Hwp & Hdp & Hl & Hadd & Hnew)]).
  - unfold plans_of in H. rewrite Hsame in H.
    apply (f_equal length) in H. rewrite length_app in H. simpl in H. lia.
  - unfold plans_of at 1 in H. rewrite Hnew, lookup_insert_eq in H. simpl in H.
    apply app_inv_head in H. injection H as <-.
    exists model. by repeat (split; [done|]).
Qed.

Lemma X11_witness :
  ∃ model,
    gemini_model null_item_env = Some model ∧
    generated_text model (workout_prompt_of example_request) = inr "Day 1: squats" ∧
    fst (music_playlist null_item_env example_request empty_world)
    = inr [example_suggestion; spotify_error null_item_error].
Proof.
  destruct (X11_generate_plan_record null_item_env example_request empty_world
              (plan_record example_request "Day 1: squats" "Day 1: squats"
                 [example_suggestion; spotify_error null_item_error])
              eq_refl)
    as (model & Hm & Hwp & _ & Hl & _).
  exists model. split; [exact Hm|]. split; [exact Hwp | exact Hl].
Defined.

(** X12. No request to [generate_plan] returns. Either the model is not
    configured, and the request fails with 503 having done nothing; or it
    fails with 500 carrying [str(e)] (with [e] itself when it is an
    HTTPException), where [e] is what one of the two text generations or
    the call of [add] raised, or else the TypeError of the [await] on what
    [add] returned, the record then being under the user. The catalog step
    is never the cause. *)
Theorem X12_generate_plan_failure_cause env request_data w :
  ∃ h,
    fst (generate_plan env request_data w) = inl h ∧
    ((gemini_model env = None ∧ status_code h = 503%Z ∧
      snd (generate_plan env request_data w) = w) ∨
     ∃ model e,
       gemini_model env = Some model ∧
       h = match exn_cls e with
           | HTTPException_cls h' => h'
           | _ => {| status_code := 500;
                     detail := "An internal error occurred while generating the plan: "
                               +:+ exn_str e |}
           end ∧
       (plan_raises env model request_data e ∨
        e = Exn TypeError_cls "object tuple can't be used in 'await' expression" ∧
        ∃ doc,
          collection_add env (user_uid request_data) doc = inr () ∧
          plans_of (snd (generate_plan env request_data w)) (user_uid request_data)
          = plans_of w (user_uid request_data) ++ [doc])).
Proof.
  destruct (gemini_model env) as [model|] eqn:Hm.
  - destruct (generate_plan_fails _ _ request_data Hm w)
      as (e & Hfail & [He | (-> & wp & dp & l & Hwp & Hdp & Hl & Hadd)]).
    + eexists. split; [exact Hfail|]. right. exists model, e.
      split; [done|]. split; [done|]. by left.
    + eexists. split; [exact Hfail|]. right. exists model, (await_error "tuple").
      split; [done|]. split; [done|]. right. split; [done|].
      exists (plan_record request_data wp dp l). split; [exact Hadd|].
      by apply (generate_plan_add_called _ _ _ Hm w _ _ _ Hwp Hdp Hl).
  - unfold generate_plan. rewrite Hm. eexists. split; [reflexivity|]. by left.
Qed.

(** ** The stores across requests *)

Lemma register_user_plans env request_data w :
  plans (snd (register_user env request_data w)) = plans w.
Proof.
  unfold register_user. unfold_M.
  destruct (create_user env _ _) as [e|user].
  - by destruct (py_in "email-already-exists" (exn_str e)).
  - destruct (document_set env (uid user) _) as [e|[]]; [|done].
    by destruct (py_in "email-already-exists" (exn_str e)).
Qed.

Lemma register_user_step env request_data w :
  store_step w (snd (register_user env request_data w)).
Proof.
  unfold register_user. unfold_M.
  destruct (create_user env _ _) as [e|user].
  - destruct (py_in "email-already-exists" (exn_str e)); by apply step_nothing.
  - destruct (document_set env (uid user) _) as [e|[]].
    + destruct (py_in "email-already-exists" (exn_str e)); by apply (step_account _ _ user).
    + by apply (step_profile _ _ user
                  {| doc_name := reg_name request_data;
                     doc_email := reg_email request_data;
                     created_at := SERVER_TIMESTAMP |}).
Qed.

Lemma login_user_stores env request_data w :
  plans (snd (login_user env request_data w)) = plans w ∧
  users (snd (login_user env request_data w)) = users w ∧
  auth_users (snd (login_user env request_data w)) = auth_users w.
Proof.
  unfold login_user. unfold_M.
  destruct (get_user_by_email env _) as [e|user]; [|done]. by destruct (exn_cls e).
Qed.

Lemma analyze_nutrition_stores env ingredients w :
  plans (snd (analyze_nutrition env ingredients w)) = plans w ∧
  users (snd (analyze_nutrition env ingredients w)) = users w ∧
  auth_users (snd (analyze_nutrition env ingredients w)) = auth_users w.
Proof.
  unfold analyze_nutrition.
  destruct (env_missing (EDAMAM_APP_ID env) || env_missing (EDAMAM_APP_KEY env));
    [done|].
  unfold_M. destruct (post env _ _ _ _) as [e|response].
  { by destruct (exn_cls e). }
  destruct (raise_for_status response) as [e|[]].
  { by destruct (exn_cls e). }
  destruct (json response) as [e|body]; [|done]. by destruct (exn_cls e).
Qed.

Lemma generate_plan_step env request_data w :
  store_step w (snd (generate_plan env request_data w)).
Proof.
  destruct (generate_plan_effect env request_data w)
    as (Hu & Ha & [Hp | (model & wp & dp & l & _ & _ & _ & _ & _ & Hp)]).
  - by apply step_nothing.
  - by apply (step_plan _ _ (user_uid request_data) (plan_record request_data wp dp l)).
Qed.

Lemma route_step env r w : store_step w (snd (route env r w)).
Proof.
  destruct r as [|request_data|request_data|request_data|ingredients]; simpl.
  - by apply step_nothing.
  - apply register_user_step.
  - destruct (login_user_stores env request_data w) as (Hp & Hu & Ha).
    by apply step_nothing.
  - apply generate_plan_step.
  - destruct (analyze_nutrition_stores env ingredients w) as (Hp & Hu & Ha).
    by apply step_nothing.
Qed.

(** A request adds plans under [u] only when it is a plan request for
    [u], and then at most one. *)
Lemma route_plans env r w u :
  ∃ added,
    plans_of (snd (route env r w)) u = plans_of w u ++ added ∧
    length added ≤ plan_request_for u r.
Proof.
  assert (Hsame : ∀ w' n, plans w' = plans w →
                          plans_of w' u = plans_of w u ++ [] ∧
                          length (@nil PlanRecord) ≤ n).
  { intros w' n Hw'. unfold plans_of. rewrite Hw', app_nil_r. simpl. split; [done|lia]. }
  destruct r as [|request_data|request_data|request_data|ingredients]; simpl.
  - exists []. by apply Hsame.
  - exists []. apply Hsame. apply register_user_plans.
  - exists []. apply Hsame. apply login_user_stores.
  - destruct (generate_plan_effect env request_data w)
      as (_ & _ & [Hp | (model & wp & dp & l & _ & _ & _ & _ & _ & Hp)]).
    { exists []. by apply Hsame. }
    destruct (String.eqb_spec (user_uid request_data) u) as [<-|Hne].
    + exists [plan_record request_data wp dp l]. split; [|done].
      unfold plans_of at 1. by rewrite Hp, lookup_insert_eq.
    + exists []. split; [|done]. rewrite app_nil_r.
      unfold plans_of. by rewrite Hp, lookup_insert_ne.
  - exists []. apply Hsame. apply analyze_nutrition_stores.
Qed.

Lemma serve_cons env r rs w :
  serve ((env, r) :: rs) w
  = (fst (route env r w) :: fst (serve rs (snd (route env r w))),
     snd (serve rs (snd (route env r w)))).
Proof.
  simpl. destruct (route env r w) as [answer w1]. simpl.
  by destruct (serve rs w1).
Qed.

(** X13. Plans are only ever appended, at most one per plan request: after
    any sequence of requests, each answered in turn, the plans of a user
    are those it had, in their order, followed by new ones, no more than
    there were plan requests for that user; so when none of the requests
    is a plan request for that user, its plans are as they were. No other
    route, and no plan request for another user, adds, changes or removes
    a plan of the user. *)
Theorem X13_plans_append_only rs w u :
  length (fst (serve rs w)) = length rs ∧
  plans_of w u `prefix_of` plans_of (snd (serve rs w)) u ∧
  length (plans_of (snd (serve rs w)) u) ≤ length (plans_of w u) + plan_requests u rs ∧
  (plan_requests u rs = 0 → plans_of (snd (serve rs w)) u = plans_of w u).
Proof.
  assert (H : length (fst (serve rs w)) = length rs ∧
              plans_of w u `prefix_of` plans_of (snd (serve rs w)) u ∧
              length (plans_of (snd (serve rs w)) u)
              ≤ length (plans_of w u) + plan_requests u rs).
  { revert w. induction rs as [|[env r] rs IH]; intros w.
    - simpl. split; [done|]. split; [done|lia].
    - rewrite serve_cons. simpl fst. simpl snd.
      destruct (IH (snd (route env r w))) as (Hlen & Hpre & Hcount).
      destruct (route_plans env r w u) as (added & Hadded & Hstored).
      split; [simpl; by rewrite Hlen|]. split.
      + trans (plans_of (snd (route env r w)) u); [|exact Hpre].
        rewrite Hadded. by apply prefix_app_r.
      + rewrite Hadded, length_app in Hcount. simpl. lia. }
  destruct H as (Hlen & Hpre & Hcount). repeat (split; [done|]).
  intros Hnone. destruct Hpre as [k Hk]. rewrite Hk, length_app in Hcount.
  destruct k as [|doc k]; [by rewrite Hk, app_nil_r | simpl in Hcount; lia].
Qed.

(** ** The log of calls *)

Lemma logs_only_ret {E A} (a : A) : logs_only (mret a : M E A).
Proof. by intros w. Qed.

Lemma logs_only_throw {E A} (e : E) : logs_only (mthrow e : M E A).
Proof. by intros w. Qed.

Lemma logs_only_bind {E A B} (m : M E A) (f : A → M E B) :
  logs_only m → (∀ a, logs_only (f a)) → logs_only (m ≫= f).
Proof.
  intros Hm Hf w. specialize (Hm w). unfold mbind, M_bind.
  destruct (m w) as [[e|a] w1]; [exact Hm|].
  trans (calls w1); [exact Hm | apply Hf].
Qed.

Lemma logs_only_try_except {E E' A} (body : M E A) (handler : E → M E' A) :
  logs_only body → (∀ e, logs_only (handler e)) → logs_only (try_except body handler).
Proof.
  intros Hb Hh w. specialize (Hb w). unfold try_except.
  destruct (body w) as [[e|a] w1]; [|exact Hb].
  trans (calls w1); [exact Hb | apply Hh].
Qed.

Lemma logs_only_external {A} (c : Call) (answer : pyres A) (effect : A → World → World) :
  (∀ a w, calls (effect a w) = calls w) → logs_only (external c answer effect).
Proof.
  intros He w. unfold external.
  destruct answer as [e|a]; simpl; [|rewrite He; simpl]; by apply prefix_app_r.
Qed.

Lemma logs_only_eval {A} (r : pyres A) : logs_only (eval r).
Proof. by intros w. Qed.

Lemma logs_only_music_playlist env request_data :
  logs_only (music_playlist env request_data).
Proof.
  intros w. destruct (music_playlist_total env request_data w) as (l & _ & ->).
  simpl. destruct (spotify env); [by apply prefix_app_r | done].
Qed.

Lemma logs_only_route env r : logs_only (route env r).
Proof.
  destruct r as [|request_data|request_data|request_data|ingredients]; simpl.
  - apply logs_only_ret.
  - apply logs_only_try_except.
    + apply logs_only_bind; [by apply logs_only_external|]. intros user.
      apply logs_only_bind; [|intros _; apply logs_only_ret].
      apply logs_only_bind; [by apply logs_only_external|]. intros _.
      apply logs_only_throw.
    + intros e. destruct (py_in _ _); apply logs_only_throw.
  - apply logs_only_try_except.
    + apply logs_only_bind; [by apply logs_only_external|]. intros user.
      apply logs_only_ret.
    + intros e. destruct (exn_cls e); apply logs_only_throw.
  - unfold generate_plan. destruct (gemini_model env) as [model|];
      [|apply logs_only_throw].
    apply logs_only_try_except.
    + apply logs_only_bind; [by apply logs_only_external|]. intros r1.
      apply logs_only_bind; [apply logs_only_eval|]. intros workout_plan.
      apply logs_only_bind; [by apply logs_only_external|]. intros r2.
      apply logs_only_bind; [apply logs_only_eval|]. intros diet_general_info.
      apply logs_only_bind; [apply logs_only_music_playlist|]. intros l.
      apply logs_only_bind; [|intros _; apply logs_only_ret].
      apply logs_only_bind; [by apply logs_only_external|]. intros _.
      apply logs_only_throw.
    + intros e. destruct (exn_cls e); apply logs_only_throw.
  - unfold analyze_nutrition.
    destruct (env_missing (EDAMAM_APP_ID env) || env_missing (EDAMAM_APP_KEY env));
      [apply logs_only_throw|].
    apply logs_only_try_except.
    + apply logs_only_bind; [by apply logs_only_external|]. intros response.
      apply logs_only_bind; [apply logs_only_eval|]. intros _.
      apply logs_only_eval.
    + intros e. destruct (exn_cls e); apply logs_only_throw.
Qed.

(** X14. Nothing is ever removed: after any sequence of requests, the
    accounts and the log of calls are what they were, in their order,
    followed by what was added, and every profile document that was stored
    is still stored. The application has no route that deletes. *)
Theorem X14_stores_only_grow rs w :
  auth_users w `prefix_of` auth_users (snd (serve rs w)) ∧
  calls w `prefix_of` calls (snd (serve rs w)) ∧
  (∀ u, is_Some (users w !! u) → is_Some (users (snd (serve rs w)) !! u)).
Proof.
  revert w. induction rs as [|[env r] rs IH]; intros w; [done|].
  rewrite serve_cons. simpl snd.
  destruct (IH (snd (route env r w))) as (Ha & Hc & Hu).
  split; [|split].
  - trans (auth_users (snd (route env r w))); [|exact Ha].
    destruct (route_step env r w) as [-> _ _| user -> _ _|user doc -> _ _| u doc -> _ _];
      by try apply prefix_app_r.
  - trans (calls (snd (route env r w))); [apply logs_only_route | exact Hc].
  - intros u Hsome. apply Hu.
    destruct (route_step env r w) as [_ -> _| user _ -> _|user doc _ -> _| u' doc _ -> _];
      try exact Hsome.
    destruct (decide (uid user = u)) as [->|Hne].
    + rewrite lookup_insert_eq. by eexists.
    + by rewrite lookup_insert_ne.
Qed.

(** X15. A profile document is only ever stored under the uid of an
    account of the identity service: if that holds of the stores, it still
    holds after any sequence of requests. (The converse fails: an account
    can be left without a profile.) *)
Theorem X15_profiles_have_accounts rs w :
  profiles_have_accounts w → profiles_have_accounts (snd (serve rs w)).
Proof.
  revert w. induction rs as [|[env r] rs IH]; intros w Hw; [exact Hw|].
  rewrite serve_cons. simpl snd. apply IH.
  intros u doc Hdoc.
  destruct (route_step env r w)
    as [Ha Hu _| user Ha Hu _|user doc' Ha Hu _| u' doc' Ha Hu _];
    rewrite Hu in Hdoc; rewrite Ha.
  - by apply (Hw u doc).
  - destruct (Hw u doc Hdoc) as (user' & Hin & Huid).
    exists user'. split; [|done]. apply elem_of_app. by left.
  - destruct (decide (uid user = u)) as [<-|Hne].
    + exists user. split; [|done]. apply elem_of_app. right. by apply list_elem_of_singleton.
    + rewrite lookup_insert_ne in Hdoc by done.
      destruct (Hw u doc Hdoc) as (user' & Hin & Huid).
      exists user'. split; [|done]. apply elem_of_app. by left.
  - by apply (Hw u doc).
Qed.

Lemma profiles_have_accounts_empty : profiles_have_accounts empty_world.
Proof. intros u doc H. simpl in H. by rewrite lookup_empty in H. Defined.

Lemma X15_witness :
  profiles_have_accounts empty_world ∧
  profiles_have_accounts
    (snd (serve [(identity_env (inr example_user) (inl unavailable) (inr ()),
                  POST_register example_register);
                 (null_item_env, POST_generate_plan example_request)]
            empty_world)).
Proof.
  split; [exact profiles_have_accounts_empty|].
  exact (X15_profiles_have_accounts
           [(identity_env (inr example_user) (inl unavailable) (inr ()),
             POST_register example_register);
            (null_item_env, POST_generate_plan example_request)]
           empty_world profiles_have_accounts_empty).
Defined.

(** ** The start of the module *)

Lemma init_firebase_inr {Cred AuthManager} (os : Platform Cred AuthManager) db :
  init_firebase os = inr db →
  ∃ path, getenv os "FIREBASE_PRIVATE_KEY_PATH" = Some path ∧ path ≠ EmptyString ∧
          path_exists os path = true ∧ firebase_constructors os path = inr db.
Proof.
  unfold init_firebase, firebase_constructors.
  destruct (getenv os "FIREBASE_PRIVATE_KEY_PATH") as [path|]; simpl; [|discriminate].
  destruct (String.eqb_spec path EmptyString) as [|Hne]; [discriminate|].
  destruct (path_exists os path) eqn:Hpath; simpl; [|discriminate].
  destruct (Certificate os path ≫= _) as [e|db'] eqn:Hc; [discriminate|].
  intros [= <-]. exists path. split; [done|]. split; [done|]. split; done.
Qed.

(** X16. The import of the module fails, before anything else is set up,
    in these cases of the Firebase settings: with RuntimeError when
    FIREBASE_PRIVATE_KEY_PATH is unset or empty; with FileNotFoundError,
    naming the path, when no file is there; with RuntimeError carrying
    [str(e)] when one of the three Firebase constructors raises [e]; and
    an import that ends with one of these two exceptions has not got a
    Firebase client. The Edamam, Gemini and Spotify settings play no part
    in it. *)
Theorem X16_main_module_firebase_errors {Cred AuthManager}
    (os : Platform Cred AuthManager) :
  (env_missing (getenv os "FIREBASE_PRIVATE_KEY_PATH") = true →
   main_module os
   = inl (RuntimeError "FIREBASE_PRIVATE_KEY_PATH environment variable not set.")) ∧
  (∀ path,
     getenv os "FIREBASE_PRIVATE_KEY_PATH" = Some path → path ≠ EmptyString →
     (path_exists os path = false →
      main_module os
      = inl (FileNotFoundError ("Firebase private key file not found at: " +:+ path))) ∧
     (∀ e, path_exists os path = true → firebase_constructors os path = inl e →
           main_module os
           = inl (RuntimeError ("Failed to initialize Firebase: " +:+ exn_str e +:+
                                ". Check FIREBASE_PRIVATE_KEY_PATH.")))) ∧
  (∀ msg, main_module os = inl (RuntimeError msg) ∨
          main_module os = inl (FileNotFoundError msg) →
          ∀ db, init_firebase os ≠ inr db).
Proof.
  unfold main_module. split; [|split].
  - intros H. unfold init_firebase. by rewrite H.
  - intros path Hp Hne. unfold init_firebase, firebase_constructors. rewrite Hp. simpl.
    apply String.eqb_neq in Hne. rewrite Hne. split.
    + by intros ->.
    + intros e -> He. simpl. by rewrite He.
  - intros msg H db Hdb. rewrite Hdb in H.
    destruct (init_gemini os); by destruct H.
Qed.

Lemma X16_witness :
  main_module unset_platform
  = inl (RuntimeError "FIREBASE_PRIVATE_KEY_PATH environment variable not set.").
Proof. exact (proj1 (X16_main_module_firebase_errors unset_platform) eq_refl). Defined.

(** X17. Once the Firebase client is there, the optional settings cannot
    stop the import: it completes when the Gemini key is unset or empty,
    or when the two Gemini constructor calls return, whatever the Edamam
    and Spotify settings and even if a Spotify constructor raises. The
    globals are then: the two Edamam variables as read; [gemini_model] is
    [None] exactly when the Gemini key is missing; [spotify] is [None]
    exactly when a Spotify credential is missing or a Spotify constructor
    raised; and the writes go to the client that was built. *)
Theorem X17_main_module_optional_settings {Cred AuthManager}
    (os : Platform Cred AuthManager) db :
  init_firebase os = inr db →
  (env_missing (getenv os "GEMINI_API_KEY") = true ∨
   ∃ model, (_ ← genai_configure os (default EmptyString (getenv os "GEMINI_API_KEY"));
             new_GenerativeModel os "gemini-pro") = inr model) →
  ∃ env,
    main_module os = inr env ∧
    EDAMAM_APP_ID env = getenv os "EDAMAM_APP_ID" ∧
    EDAMAM_APP_KEY env = getenv os "EDAMAM_APP_KEY" ∧
    (gemini_model env = None ↔ env_missing (getenv os "GEMINI_API_KEY") = true) ∧
    (spotify env = None ↔
     env_missing (getenv os "SPOTIPY_CLIENT_ID") = true ∨
     env_missing (getenv os "SPOTIPY_CLIENT_SECRET") = true ∨
     ∃ e, spotify_constructors os = inl e) ∧
    document_set env = client_document_set db ∧
    collection_add env = client_collection_add db.
Proof.
  intros Hdb Hg. unfold main_module. rewrite Hdb.
  assert (Hsp : init_spotify os = None ↔
                env_missing (getenv os "SPOTIPY_CLIENT_ID") = true ∨
                env_missing (getenv os "SPOTIPY_CLIENT_SECRET") = true ∨
                ∃ e, spotify_constructors os = inl e).
  { unfold init_spotify, spotify_constructors.
    destruct (env_missing (getenv os "SPOTIPY_CLIENT_ID")); [by split; auto|].
    destruct (env_missing (getenv os "SPOTIPY_CLIENT_SECRET")); [by split; auto|].
    simpl. destruct (SpotifyClientCredentials os _ _ ≫= _) as [e|sp].
    - split; [|done]. intros _. right. right. by exists e.
    - split; [done|]. intros [|[|[e He]]]; done. }
  unfold init_gemini.
  destruct (env_missing (getenv os "GEMINI_API_KEY")) eqn:Hkey.
  - eexists. split; [reflexivity|]. simpl.
    split; [done|]. split; [done|]. split; [by split|]. split; [exact Hsp|]. by split.
  - destruct Hg as [|[model Hmodel]]; [done|].
    unfold mbind, pyres_bind in Hmodel |- *.
    destruct (genai_configure os _) as [e|[]]; [done|].
    rewrite Hmodel. simpl.
    eexists. split; [reflexivity|]. simpl.
    split; [done|]. split; [done|]. split; [by split|]. split; [exact Hsp|]. by split.
Qed.

Lemma X17_witness :
  ∃ env,
    main_module bare_platform = inr env ∧
    gemini_model env = None ∧ spotify env = None ∧ EDAMAM_APP_ID env = None.
Proof.
  destruct (X17_main_module_optional_settings bare_platform example_client
              eq_refl (or_introl eq_refl))
    as (env & Hstart & Hid & _ & Hg & Hsp & _).
  exists env. split; [exact Hstart|].
  split; [exact (proj2 Hg eq_refl)|].
  split; [exact (proj2 Hsp (or_introl eq_refl))|].
  exact Hid.
Defined.

(** X18. What a missing setting does to the endpoints of a module that
    has started: without the Gemini key every request to [generate_plan]
    fails with 503 and nothing is done; without one of the Edamam
    variables every request to [analyze_nutrition] fails with 503 and
    nothing is done; without one of the Spotify credentials, or after a
    Spotify constructor raised, the catalog step of every plan request
    gives the "not initialized" marker alone and makes no call. *)
Theorem X18_missing_settings_disable_endpoints {Cred AuthManager}
    (os : Platform Cred AuthManager) env :
  main_module os = inr env →
  (env_missing (getenv os "GEMINI_API_KEY") = true →
   ∀ request_data w,
     generate_plan env request_data w
     = (inl {| status_code := 503;
               detail := "AI model (Gemini) is not initialized. Please check GEMINI_API_KEY." |},
        w)) ∧
  (env_missing (getenv os "EDAMAM_APP_ID") = true ∨
   env_missing (getenv os "EDAMAM_APP_KEY") = true →
   ∀ ingredients w,
     analyze_nutrition env ingredients w = (inl nutrition_unavailable, w)) ∧
  (env_missing (getenv os "SPOTIPY_CLIENT_ID") = true ∨
   env_missing (getenv os "SPOTIPY_CLIENT_SECRET") = true ∨
   (∃ e, spotify_constructors os = inl e) →
   ∀ request_data w,
     music_playlist env request_data w = (inr [spotify_not_initialized], w)).
Proof.
  unfold main_module. destruct (init_firebase os) as [err|db]; [discriminate|].
  destruct (init_gemini os) as [e|model] eqn:Hg; [discriminate|].
  intros [= <-]. split; [|split].
  - intros Hkey request_data w. unfold init_gemini in Hg. rewrite Hkey in Hg.
    injection Hg as <-. reflexivity.
  - intros H ingredients w. unfold analyze_nutrition. simpl.
    destruct H as [-> | ->]; [done|]. by rewrite orb_true_r.
  - intros H request_data w. apply music_playlist_unconfigured. simpl.
    unfold init_spotify. fold (spotify_constructors os).
    destruct H as [-> | [-> | [e ->]]]; [done| |].
    + by rewrite orb_true_r.
    + by destruct (_ || _).
Qed.

Lemma X18_witness :
  ∃ env,
    main_module bare_platform = inr env ∧
    response_status HTTP_200_OK
      (fst (generate_plan env example_request empty_world)) = 503%Z ∧
    response_status HTTP_200_OK
      (fst (analyze_nutrition env example_ingredients empty_world)) = 503%Z.
Proof.
  destruct (main_module bare_platform) as [err|env] eqn:Hstart; [discriminate Hstart|].
  destruct (X18_missing_settings_disable_endpoints bare_platform env Hstart)
    as (Hplan & Hnutrition & _).
  exists env. split; [reflexivity|]. split.
  - by rewrite (Hplan eq_refl example_request empty_world).
  - by rewrite (Hnutrition (or_introl eq_refl) example_ingredients empty_world).
Defined.

(** ** Which marker the catalog step leaves *)

Lemma pyres_bind_inl {A B} (m : pyres A) (f : A → pyres B) (e : exn) :
  m ≫= f = inl e → m = inl e ∨ ∃ a, m = inr a ∧ f a = inl e.
Proof.
  unfold mbind, pyres_bind. destruct m as [e'|a]; [intros [= ->]; by left|].
  intros H. right. exists a. split; [reflexivity | exact H].
Qed.

Lemma py_getitem_raised v k e : py_getitem v k = inl e → interpreter_raised e.
Proof.
  destruct v as [| | | | | |d]; simpl; try (intros [= <-]; exact I).
  destruct (dict_lookup d k); [discriminate|]. intros [= <-]. exact I.
Qed.

Lemma py_getitem_0_raised v e : py_getitem_0 v = inl e → interpreter_raised e.
Proof.
  destruct v as [| | | |s|l|d]; simpl; try (intros [= <-]; exact I).
  - destruct s; [intros [= <-]; exact I | discriminate].
  - destruct l; [intros [= <-]; exact I | discriminate].
Qed.

Lemma py_get_raised v k x e : py_get v k x = inl e → interpreter_raised e.
Proof. destruct v; simpl; intros [= <-]; exact I. Qed.

Lemma py_iter_raised v e : py_iter v = inl e → interpreter_raised e.
Proof. destruct v; simpl; intros [= <-]; exact I. Qed.

Ltac raised_in H :=
  repeat match type of H with
         | _ ≫= _ = inl _ =>
             let a := fresh "a" in
             let Ha := fresh "Ha" in
             apply pyres_bind_inl in H as [H | (a & Ha & H)]
         end;
  eauto using py_getitem_raised, py_getitem_0_raised, py_get_raised, py_iter_raised.

Lemma playlist_suggestion_raised playlist e :
  playlist_suggestion playlist = inl e → interpreter_raised e.
Proof.
  unfold playlist_suggestion. intros H.
  apply pyres_bind_inl in H as [H | (name & _ & H)]; [raised_in H|].
  apply pyres_bind_inl in H as [H | (description & _ & H)]; [raised_in H|].
  apply pyres_bind_inl in H as [H | (external_urls & _ & H)]; [raised_in H|].
  apply pyres_bind_inl in H as [H | (spotify_url & _ & H)]; [raised_in H|].
  apply pyres_bind_inl in H as [H | (images & _ & H)]; [raised_in H|].
  apply pyres_bind_inl in H as [H | (image_url & _ & H)].
  { destruct (py_truthy images); [|discriminate H].
    apply pyres_bind_inl in H as [H | (images' & _ & H)]; [raised_in H|].
    apply pyres_bind_inl in H as [H | (image & _ & H)]; raised_in H. }
  apply pyres_bind_inl in H as [H | (owner & _ & H)]; [raised_in H|].
  apply pyres_bind_inl in H as [H | (display_name & _ & H)]; [raised_in H|].
  apply pyres_bind_inl in H as [H | (tracks & _ & H)]; [raised_in H|].
  apply pyres_bind_inl in H as [H | (total & _ & H)]; [raised_in H|].
  discriminate H.
Qed.

Lemma playlist_items_raised results e :
  playlist_items results = inl e → interpreter_raised e.
Proof.
  unfold playlist_items. intros H.
  apply pyres_bind_inl in H as [H | (playlists & _ & H)]; [raised_in H|].
  apply pyres_bind_inl in H as [H | (items & _ & H)]; raised_in H.
Qed.

(** X19. When the catalog step ends with an exception [se], its marker
    reads "Spotify API error: <se>. Check credentials or network." only if
    [se] is a SpotifyException raised by the search call itself. Whatever
    goes wrong once the search has returned (a result that is not a dict, a
    missing key, a [None] among the items) is raised by the interpreter and
    gives "An unexpected Spotify error occurred: <se>". *)
Theorem X19_spotify_error_marker sp request_data se l :
  catalog_raises sp request_data se l →
  (search sp (search_query request_data) "playlist" 5 = inl se ∧
   exn_cls se = SpotifyException_cls ∧
   spotify_error se
   = PyDict [("error", PyStr ("Spotify API error: " +:+ exn_str se +:+
                              ". Check credentials or network."))]) ∨
  (exn_cls se ≠ SpotifyException_cls ∧
   spotify_error se
   = PyDict [("error", PyStr ("An unexpected Spotify error occurred: " +:+ exn_str se))]).
Proof.
  assert (Hother : ∀ e, exn_cls e ≠ SpotifyException_cls →
                        spotify_error e
                        = PyDict [("error",
                                   PyStr ("An unexpected Spotify error occurred: "
                                          +:+ exn_str e))]).
  { intros e He. unfold spotify_error. by destruct (exn_cls e). }
  assert (Hraised : ∀ e, interpreter_raised e → exn_cls e ≠ SpotifyException_cls).
  { intros e He Hcls. unfold interpreter_raised in He. by rewrite Hcls in He. }
  intros [se' Hs | results se' _ Hi | results before p rest l' se' _ _ _ Hp].
  - destruct (exn_cls se') eqn:Hcls;
      try (right; split; [done|]; apply Hother; by rewrite Hcls).
    left. split; [exact Hs|]. split; [done|]. unfold spotify_error. by rewrite Hcls.
  - right. pose proof (Hraised _ (playlist_items_raised _ _ Hi)). auto.
  - right. pose proof (Hraised _ (playlist_suggestion_raised _ _ Hp)). auto.
Qed.

Lemma X19_witness :
  exn_cls null_item_error ≠ SpotifyException_cls ∧
  spotify_error null_item_error
  = PyDict [("error",
             PyStr ("An unexpected Spotify error occurred: " +:+ exn_str null_item_error))].
Proof.
  destruct (X19_spotify_error_marker
              (catalog_returning (search_result [example_playlist; PyNone]))
              example_request null_item_error [example_suggestion] null_item_raises)
    as [(Hs & _) | H].
  - discriminate Hs.
  - exact H.
Defined.
